(** * Google Sign-In server: verification of the ID token

    A shallow embedding of the token pipeline of the Node.js server
    ([base64UrlDecode], [parseJWT], [fetchGooglePublicKeys], [verifyJWT])
    and the properties of it that the specification states.

    JavaScript strings are modelled as [string] (code units below 256),
    buffers as lists of 8-bit integers, JSON numbers as integers (the
    NumericDate second counts the verifier compares).  A JavaScript call
    either completes normally or throws; calls that reach the outside world
    (network, OpenSSL) also leave a trace of events. *)

From Stdlib Require Import ZArith List String Ascii Bool Lia DecimalString.
From Equations Require Import Equations.
Import ListNotations.

Set Implicit Arguments.
Set Warnings "-register-all".
Local Open Scope string_scope.

(** ** JavaScript values and completions *)

Module JS.

(** What [JSON.parse] can produce, plus [undefined] for a missing property. *)
Inductive value : Type :=
| Undefined
| Null
| Bool (b : bool)
| Num (n : Z)
| Str (s : string)
| Arr (elements : list value)
| Obj (properties : list (string * value)).

(** The exceptions that can travel through the verifier. *)
Inductive error : Type :=
| Error (message : string)      (* [new Error(message)], thrown by the server *)
| TypeError                     (* property read on null/undefined, call of a non-function *)
| SyntaxError                   (* [JSON.parse] on text that is not JSON *)
| SystemError (code : string).  (* network and OpenSSL failures *)

Inductive Completion (A : Type) : Type :=
| Normal (a : A)
| Throw (e : error).
Arguments Throw {A} e.

Definition isNormal {A} (c : Completion A) : bool :=
  match c with Normal _ => true | Throw _ => false end.

(** [ToBoolean]. *)
Definition ToBoolean (v : value) : bool :=
  match v with
  | Undefined | Null => false
  | Bool b => b
  | Num n => negb (n =? 0)%Z
  | Str s => negb (s =? "")
  | Arr _ | Obj _ => true
  end.

(** [a === b].  Arrays and objects are equal only to themselves; the two
    operands of every [===] of the server come out of different [JSON.parse]
    calls or are string literals, so they are never the same object. *)
Definition strict_eq (a b : value) : bool :=
  match a, b with
  | Undefined, Undefined => true
  | Null, Null => true
  | Bool x, Bool y => Bool.eqb x y
  | Num x, Num y => (x =? y)%Z
  | Str x, Str y => (x =? y)
  | _, _ => false
  end.

Fixpoint lookup (name : string) (properties : list (string * value)) : option value :=
  match properties with
  | [] => None
  | (k, v) :: rest => if k =? name then Some v else lookup name rest
  end.

(** [v.name] for the property names the server reads ([exp], [aud], [iss],
    [kid], [keys], [kty], [n], [e]): none of them lives on a prototype, so
    the read yields the own property of an object and [undefined] on every
    other value, except that it throws on [null] and [undefined]. *)
Definition get (v : value) (name : string) : Completion value :=
  match v with
  | Undefined | Null => Throw TypeError
  | Obj properties =>
      match lookup name properties with
      | Some x => Normal x
      | None => Normal Undefined
      end
  | _ => Normal Undefined
  end.

End JS.
Import JS.

(** ** Strings *)

Module Str.

(** [s.split(sep)] for a one-character separator: always at least one
    segment, the empty string splits into [[""]]. *)
Fixpoint split (sep : ascii) (s : string) : list string :=
  match s with
  | EmptyString => [EmptyString]
  | String c rest =>
      if Ascii.eqb c sep then EmptyString :: split sep rest
      else match split sep rest with
           | seg :: segs => String c seg :: segs
           | [] => [String c EmptyString]
           end
  end.

(** [s.replace(/from/g, to)] for one-character patterns. *)
Fixpoint replaceAll (from to : ascii) (s : string) : string :=
  match s with
  | EmptyString => EmptyString
  | String c rest =>
      String (if Ascii.eqb c from then to else c) (replaceAll from to rest)
  end.

Fixpoint contains (c : ascii) (s : string) : bool :=
  match s with
  | EmptyString => false
  | String d rest => Ascii.eqb d c || contains c rest
  end.

(** [segs.join(sep)] *)
Fixpoint join (sep : string) (segs : list string) : string :=
  match segs with
  | [] => ""
  | [seg] => seg
  | seg :: rest => seg ++ sep ++ join sep rest
  end.

End Str.

(** ** Node.js buffers: lenient base64 decoding *)

Definition Buffer := list Z.

Module Base64.

(** Value of a base64 character; Node accepts the standard and the URL-safe
    alphabet alike. *)
Definition unbase64 (c : ascii) : option Z :=
  let n := Z.of_nat (nat_of_ascii c) in
  (if (65 <=? n) && (n <=? 90) then Some (n - 65)
   else if (97 <=? n) && (n <=? 122) then Some (n - 71)
   else if (48 <=? n) && (n <=? 57) then Some (n + 4)
   else if (n =? 43) || (n =? 45) then Some 62
   else if (n =? 47) || (n =? 95) then Some 63
   else None)%Z.

(** The decoder reads up to the first ["="] and skips every character that
    is not in the alphabet. *)
Fixpoint sextets (s : string) : list Z :=
  match s with
  | EmptyString => []
  | String c rest =>
      if Ascii.eqb c "="%char then []
      else match unbase64 c with
           | Some v => v :: sextets rest
           | None => sextets rest
           end
  end.

(** Four sextets give three bytes; a last group of three gives two bytes,
    of two gives one, and a lone sextet gives none. *)
Fixpoint octets (l : list Z) : Buffer :=
  (match l with
  | a :: b :: c :: d :: rest =>
      Z.lor (Z.shiftl (Z.land a 63) 2) (Z.shiftr (Z.land b 48) 4)
      :: Z.lor (Z.shiftl (Z.land b 15) 4) (Z.shiftr (Z.land c 60) 2)
      :: Z.lor (Z.shiftl (Z.land c 3) 6) (Z.land d 63)
      :: octets rest
  | [a; b; c] =>
      [ Z.lor (Z.shiftl (Z.land a 63) 2) (Z.shiftr (Z.land b 48) 4);
        Z.lor (Z.shiftl (Z.land b 15) 4) (Z.shiftr (Z.land c 60) 2) ]
  | [a; b] =>
      [ Z.lor (Z.shiftl (Z.land a 63) 2) (Z.shiftr (Z.land b 48) 4) ]
  | _ => []
  end)%Z.

(** [Buffer.from(s, "base64")]: never throws. *)
Definition Buffer_from (s : string) : Buffer := octets (sextets s).

End Base64.

(** ** base64UrlDecode *)

(** Characters still missing to reach a length that is a multiple of 4. *)
Definition missing (base64 : string) : nat :=
  ((4 - String.length base64 mod 4) mod 4)%nat.

(** The padding loop [while (base64.length % 4) base64 += "="]. *)
Equations? pad (base64 : string) : string by wf (missing base64) lt :=
  pad base64 with Nat.eq_dec (String.length base64 mod 4) 0 => {
    | left _ := base64 ;
    | right _ := pad (base64 ++ "=") }.
Proof.
  change (missing (base64 ++ "=") < missing base64)%nat.
  match goal with
  | H : _ <> 0%nat |- _ => change (String.length base64 mod 4 <> 0)%nat in H
  end.
  assert (L : forall a b, String.length (a ++ b) = (String.length a + String.length b)%nat).
  { induction a as [|c a IH]; simpl; intros; [reflexivity | now rewrite IH]. }
  unfold missing. rewrite L. simpl String.length.
  rewrite Nat.Div0.add_mod.
  pose proof (Nat.mod_upper_bound (String.length base64) 4 ltac:(lia)) as B.
  set (m := (String.length base64 mod 4)%nat) in *.
  assert (m = 1 \/ m = 2 \/ m = 3)%nat as [E|[E|E]] by lia; rewrite E; cbn; lia.
Qed.

Definition base64UrlDecode (str : string) : Completion Buffer :=
  let base64 := Str.replaceAll "_" "/" (Str.replaceAll "-" "+" str) in
  let base64 := pad base64 in
  Normal (Base64.Buffer_from base64).

(** ** The world outside the server *)

(** The JWK handed to [crypto.createPublicKey]. *)
Record JWK : Type := { kty : value; n : value; e : value }.

(** An OpenSSL public key, as returned by [crypto.createPublicKey]. *)
Inductive KeyObject : Type := KeyHandle (id : N).

(** The [Verify] object of [crypto.createVerify]: its algorithm and the data
    fed to it so far. *)
Record Verify : Type := { algorithm : string; buffered : string }.

(** What one verification sees of the Node.js runtime: the clock, the JSON
    reader, UTF-8 decoding, the conversions of [<] on operands that are not
    numbers, the network and OpenSSL.  [ToPrimitive] of an array or an
    object calls its [valueOf] and [toString]; it throws when neither gives
    a primitive, as for an object read from [{"toString":1}]. *)
Record Runtime : Type := {
  Date_now : Z;
  JSON_parse : string -> Completion value;
  Buffer_toString : Buffer -> string;
  StringToNumber : string -> option Z;          (* [None] is NaN *)
  ToPrimitive : value -> Completion string;     (* of an array or an object *)
  https_get : string -> Completion string;      (* the body, or the 'error' event,
                                                   of a request that is answered *)
  crypto_createPublicKey : JWK -> Completion KeyObject;
  crypto_verify : string -> string -> KeyObject -> Buffer -> Completion bool
}.

(** Sequencing of calls that may throw. *)
Definition andThen {A B} (c : Completion A) (k : A -> Completion B) : Completion B :=
  match c with
  | Normal a => k a
  | Throw err => Throw err
  end.

Notation "'let*' x ':=' c 'in' k" := (andThen c (fun x => k))
  (at level 10, x name, c at level 100, k at level 200).

(** What the server does to the outside world. *)
Inductive Event : Type :=
| HttpsGet (url : string)
| CreatePublicKey (jwk : JWK)
| VerifySignature (algorithm : string) (data : string)
                  (key : KeyObject) (signature : Buffer).

(** A computation: its completion and the events it caused, oldest first. *)
Definition Eff (A : Type) : Type := (Completion A * list Event)%type.

Definition ret {A} (a : A) : Eff A := (Normal a, []).
Definition throw {A} (err : error) : Eff A := (Throw err, []).
Definition lift {A} (c : Completion A) : Eff A := (c, []).
Definition emit (ev : Event) : Eff unit := (Normal tt, [ev]).

Definition bind {A B} (m : Eff A) (k : A -> Eff B) : Eff B :=
  match m with
  | (Normal a, t) => let (r, t') := k a in (r, (t ++ t')%list)
  | (Throw err, t) => (Throw err, t)
  end.

Notation "x <- m ;; k" := (bind m (fun x => k))
  (at level 61, m at next level, right associativity).
Notation "m ;;; k" := (bind m (fun _ => k))
  (at level 61, right associativity).

(** [if (c) throw err;] *)
Definition throwIf (c : bool) (err : error) : Eff unit :=
  if c then throw err else ret tt.

Definition result {A} (m : Eff A) : Completion A := fst m.
Definition trace {A} (m : Eff A) : list Event := snd m.

(** ** The server *)

Definition CLIENT_ID : string :=
  "48315565897-6i3403uof617avnel62iu3jhcqo70u81.apps.googleusercontent.com".

Definition GOOGLE_JWKS_URL : string :=
  "https://www.googleapis.com/oauth2/v3/certs".

(** The result of [parseJWT]. *)
Record ParsedJWT : Type := {
  header : value;
  payload : value;
  signature : string;
  raw : list string
}.

Section Server.

Variable rt : Runtime.

(** [ToNumber]; it throws when [ToPrimitive] does. *)
Definition ToNumber (v : value) : Completion (option Z) :=
  match v with
  | Undefined => Normal None
  | Null => Normal (Some 0%Z)
  | Bool b => Normal (Some (if b then 1 else 0)%Z)
  | Num x => Normal (Some x)
  | Str s => Normal (StringToNumber rt s)
  | Arr _ | Obj _ =>
      let* primitive := ToPrimitive rt v in
      Normal (StringToNumber rt primitive)
  end.

(** [v < m] for a number [m]; a comparison with NaN is false. *)
Definition lessThan (v : value) (m : Z) : Completion bool :=
  let* number := ToNumber v in
  Normal match number with
         | Some x => (x <? m)%Z
         | None => false
         end.

(** [array.find(callback)]; calling [find] on anything but an array is a
    [TypeError] (no such method, or no object at all). *)
Fixpoint find (callback : value -> Eff bool) (elements : list value) : Eff value :=
  match elements with
  | [] => ret Undefined
  | k :: rest =>
      found <- callback k ;;
      if found then ret k else find callback rest
  end.

Definition Array_find (array : value) (callback : value -> Eff bool) : Eff value :=
  match array with
  | Arr elements => find callback elements
  | _ => throw TypeError
  end.

(** The promise of [fetchGooglePublicKeys] for a request that is answered:
    it resolves with the parsed body, or rejects with the ['error'] of the
    request or with the exception of [JSON.parse].  No timeout is set; a
    request that is never answered is the matter of [await], in the HTTP
    layer. *)
Definition fetchGooglePublicKeys : Eff value :=
  emit (HttpsGet GOOGLE_JWKS_URL) ;;;
  data <- lift (https_get rt GOOGLE_JWKS_URL) ;;
  lift (JSON_parse rt data).

Definition parseJWT (token : string) : Completion ParsedJWT :=
  let parts := Str.split "." token in
  if negb (List.length parts =? 3)%nat then Throw (Error "Invalid JWT format")
  else
    let* headerBytes := base64UrlDecode (nth 0 parts "") in
    let* header := JSON_parse rt (Buffer_toString rt headerBytes) in
    let* payloadBytes := base64UrlDecode (nth 1 parts "") in
    let* payload := JSON_parse rt (Buffer_toString rt payloadBytes) in
    let signature := nth 2 parts "" in
    Normal {| header := header; payload := payload;
              signature := signature; raw := parts |}.

Definition createVerify (algorithm : string) : Verify :=
  {| algorithm := algorithm; buffered := "" |}.

Definition Verify_update (verify : Verify) (data : string) : Verify :=
  {| algorithm := algorithm verify; buffered := buffered verify ++ data |}.

Definition Verify_verify (verify : Verify) (publicKey : KeyObject)
    (signature : Buffer) : Eff bool :=
  emit (VerifySignature (algorithm verify) (buffered verify) publicKey signature) ;;;
  lift (crypto_verify rt (algorithm verify) (buffered verify) publicKey signature).

Definition createPublicKey (jwk : JWK) : Eff KeyObject :=
  emit (CreatePublicKey jwk) ;;;
  lift (crypto_createPublicKey rt jwk).

(** [Math.floor(Date.now() / 1000)] *)
Definition currentSeconds : Z := (Date_now rt / 1000)%Z.

(** The condition of VERIFICA 1, [payload.exp && payload.exp < now]. *)
Definition expired (payload : value) (now : Z) : Completion bool :=
  let* exp := get payload "exp" in
  if ToBoolean exp
  then let* exp' := get payload "exp" in lessThan exp' now
  else Normal false.

(** The condition of VERIFICA 2, [payload.aud !== CLIENT_ID]. *)
Definition audienceMismatch (payload : value) : Completion bool :=
  let* aud := get payload "aud" in
  Normal (negb (strict_eq aud (Str CLIENT_ID))).

(** The condition of VERIFICA 3,
    [payload.iss !== "https://accounts.google.com" &&
     payload.iss !== "accounts.google.com"]. *)
Definition issuerMismatch (payload : value) : Completion bool :=
  let* iss := get payload "iss" in
  if negb (strict_eq iss (Str "https://accounts.google.com"))
  then let* iss' := get payload "iss" in
       Normal (negb (strict_eq iss' (Str "accounts.google.com")))
  else Normal false.

(** The callback of [keys.keys.find], [(k) => k.kid === header.kid]. *)
Definition sameKid (header : value) (k : value) : Eff bool :=
  k_kid <- lift (get k "kid") ;;
  header_kid <- lift (get header "kid") ;;
  ret (strict_eq k_kid header_kid).

(** The body of [verifyJWT] once [parseJWT] has returned
    [{ header, payload, signature, raw }]. *)
Definition verifyParsed (header payload : value) (signature : string)
    (raw : list string) : Eff value :=
  (* VERIFICA 1 *)
  let now := currentSeconds in
  isExpired <- lift (expired payload now) ;;
  throwIf isExpired (Error "Token has expired") ;;;
  (* VERIFICA 2 *)
  wrongAudience <- lift (audienceMismatch payload) ;;
  throwIf wrongAudience (Error "Token audience mismatch") ;;;
  (* VERIFICA 3 *)
  wrongIssuer <- lift (issuerMismatch payload) ;;
  throwIf wrongIssuer (Error "Invalid token issuer") ;;;
  (* VERIFICA 4 *)
  keys <- fetchGooglePublicKeys ;;
  keys_keys <- lift (get keys "keys") ;;
  key <- Array_find keys_keys (sameKid header) ;;
  throwIf (negb (ToBoolean key)) (Error "Public key not found") ;;;
  signatureBuffer <- lift (base64UrlDecode signature) ;;
  let dataToVerify := nth 0 raw "" ++ "." ++ nth 1 raw "" in
  key_kty <- lift (get key "kty") ;;
  key_n <- lift (get key "n") ;;
  key_e <- lift (get key "e") ;;
  publicKey <- createPublicKey {| kty := key_kty; n := key_n; e := key_e |} ;;
  let verify := createVerify "RSA-SHA256" in
  let verify := Verify_update verify dataToVerify in
  isValid <- Verify_verify verify publicKey signatureBuffer ;;
  throwIf (negb isValid) (Error "Invalid token signature") ;;;
  ret payload.

Definition verifyJWT (token : string) : Eff value :=
  parsed <- lift (parseJWT token) ;;
  verifyParsed (header parsed) (payload parsed) (signature parsed) (raw parsed).

End Server.

(** ** The HTTP layer *)

(** A request as the server sees it: method, URL, [Host] header and the
    chunks of the body, in the order of the ['data'] events that precede
    ['end']. *)
Record Request : Type := {
  method : string;
  url : string;
  host : option string;
  chunks : list Buffer
}.

(** More of the runtime: the JSON writer, [new URL(input, base).pathname],
    the [message] the runtime gives to the errors it raises itself, and
    whether a request to a URL is ever answered, by ['end'] or by ['error'].
    [https.get] is given no timeout, and the promise of
    [fetchGooglePublicKeys] settles on these two events only: [https_get] of
    the [Runtime] says how a request is answered, when it is. *)
Record Platform : Type := {
  JSON_stringify : value -> string;
  URL_pathname : string -> string -> Completion string;
  runtime_message : error -> string;
  https_answers : string -> bool
}.

(** What a request handler does: what [verifyJWT] does outside, lines on
    the console, and the response. *)
Inductive Output : Type :=
| Outside (ev : Event)
| ConsoleLog (label : string) (v : value)
| ConsoleError (label : string) (err : error)
| WriteHead (statusCode : Z) (headers : list (string * string))
| EndResponse (body : option string).

(** A computation that leaves events of type [E]. *)
Definition Run (E A : Type) : Type := (Completion A * list E)%type.

Definition unit_io {E A} (a : A) : Run E A := (Normal a, []).
Definition lift_io {E A} (c : Completion A) : Run E A := (c, []).
Definition say {E} (out : E) : Run E unit := (Normal tt, [out]).

Definition bind_io {E A B} (m : Run E A) (k : A -> Run E B) : Run E B :=
  match m with
  | (Normal a, t) => let (r, t') := k a in (r, (t ++ t')%list)
  | (Throw err, t) => (Throw err, t)
  end.

(** [try { m } catch (error) { handler }] *)
Definition tryCatch {E A} (m : Run E A) (handler : error -> Run E A) : Run E A :=
  match m with
  | (Normal a, t) => (Normal a, t)
  | (Throw err, t) => let (r, t') := handler err in (r, (t ++ t')%list)
  end.

Definition IO : Type -> Type := Run Output.

Declare Scope io_scope.
Delimit Scope io_scope with io.
Notation "x <- m ;; k" := (bind_io m (fun x => k))
  (at level 61, m at next level, right associativity) : io_scope.
Notation "m ;;; k" := (bind_io m (fun _ => k))
  (at level 61, right associativity) : io_scope.

(** An [async] function runs until it returns, throws, or awaits what never
    comes. *)
Inductive Settlement (A : Type) : Type :=
| Settled (completion : Completion A)
| Pending.
Arguments Pending {A}.

Definition Async (A : Type) : Type := (Settlement A * list Output)%type.

(** A step that awaits nothing. *)
Definition settled {A} (m : IO A) : Async A := (Settled (fst m), snd m).

Definition bind_async {A B} (m : Async A) (k : A -> Async B) : Async B :=
  match m with
  | (Settled (Normal a), t) => let (r, t') := k a in (r, (t ++ t')%list)
  | (Settled (Throw err), t) => (Settled (Throw err), t)
  | (Pending, t) => (Pending, t)
  end.

(** [try { m } catch (error) { handler }] in an [async] function: a function
    that waits forever inside [try] never reaches [catch]. *)
Definition tryCatch_async {A} (m : Async A) (handler : error -> Async A) : Async A :=
  match m with
  | (Settled (Throw err), t) => let (r, t') := handler err in (r, (t ++ t')%list)
  | _ => m
  end.

(** A promise nobody waits for: the caller goes on, what the function does
    is done all the same. *)
Definition detached {A} (m : Async A) : IO unit := (Normal tt, snd m).

Declare Scope async_scope.
Delimit Scope async_scope with async.
Notation "x <- m ;; k" := (bind_async m (fun x => k))
  (at level 61, m at next level, right associativity) : async_scope.
Notation "m ;;; k" := (bind_async m (fun _ => k))
  (at level 61, right associativity) : async_scope.

Section Http.

Variable rt : Runtime.
Variable pf : Platform.

Local Open Scope io_scope.

(** [error.message]: the text given to [new Error], or the text the runtime
    gave to an error it raised.  An [error] keeps the kind of such an error,
    not the place it was raised at, which the text of the runtime names. *)
Definition message (err : error) : value :=
  match err with
  | Error text => Str text
  | _ => Str (runtime_message pf err)
  end.

Definition parseJSON (body : string) : value :=
  match JSON_parse rt body with
  | Normal data => data
  | Throw _ => Null
  end.

Definition sendJSON (statusCode : Z) (data : value) : IO unit :=
  let json := JSON_stringify pf data in
  say (WriteHead statusCode
         [("Content-Type", "application/json");
          ("Access-Control-Allow-Origin", "*");
          ("Access-Control-Allow-Methods", "GET, POST, OPTIONS");
          ("Access-Control-Allow-Headers", "Content-Type")]) ;;;
  say (EndResponse (Some json)).

Definition handleCORS : IO unit :=
  say (WriteHead 200
         [("Access-Control-Allow-Origin", "*");
          ("Access-Control-Allow-Methods", "GET, POST, OPTIONS");
          ("Access-Control-Allow-Headers", "Content-Type")]) ;;;
  say (EndResponse None).

(** [verifyJWT(token)] for whatever the body gave as [token]: only a string
    has a [split] to call. *)
Definition callVerifyJWT (token : value) : Eff value :=
  match token with
  | Str text => verifyJWT rt text
  | _ => throw TypeError
  end.

(** The body, once every chunk has arrived. *)
Definition receivedBody (req : Request) : string :=
  fold_left (fun body chunk => body ++ Buffer_toString rt chunk) (chunks req) "".

(** [!data || !data.token] *)
Definition tokenMissing (data : value) : Completion bool :=
  if negb (ToBoolean data) then Normal true
  else let* token := get data "token" in Normal (negb (ToBoolean token)).

(** What has happened of a run of the verifier when one of its requests is
    never answered: the events up to that request.  [None] when every
    request is answered. *)
Fixpoint unanswered (t : list Event) : option (list Event) :=
  match t with
  | [] => None
  | HttpsGet url :: rest =>
      if https_answers pf url
      then match unanswered rest with
           | Some seen => Some (HttpsGet url :: seen)
           | None => None
           end
      else Some [HttpsGet url]
  | ev :: rest =>
      match unanswered rest with
      | Some seen => Some (ev :: seen)
      | None => None
      end
  end.

(** [await m], for a computation of the verifier: the function goes on when
    [m] settles, and waits forever at a request that is never answered. *)
Definition await {A} (m : Eff A) : Async A :=
  match unanswered (snd m) with
  | Some seen => (Pending, map Outside seen)
  | None => (Settled (fst m), map Outside (snd m))
  end.

(** The listener of ['end'], with the body the ['data'] events have
    gathered. *)
Definition onEnd (body : string) : Async unit :=
  (tryCatch_async
    (let data := parseJSON body in
     missing <- settled (lift_io (tokenMissing data)) ;;
     if missing
     then settled (sendJSON 400 (Obj [("success", Bool false);
                                      ("error", Str "Token is required")]))
     else
       data_token <- settled (lift_io (get data "token")) ;;
       payload <- await (callVerifyJWT data_token) ;;
       settled
         (say (ConsoleLog "Payload:" payload) ;;;
          payload_sub <- lift_io (get payload "sub") ;;
          payload_email <- lift_io (get payload "email") ;;
          payload_name <- lift_io (get payload "name") ;;
          payload_picture <- lift_io (get payload "picture") ;;
          payload_email_verified <- lift_io (get payload "email_verified") ;;
          let userInfo := Obj [("id", payload_sub);
                               ("email", payload_email);
                               ("name", payload_name);
                               ("picture", payload_picture);
                               ("emailVerified", payload_email_verified)] in
          say (ConsoleLog "User logged in:" userInfo) ;;;
          sendJSON 200 (Obj [("success", Bool true);
                             ("user", userInfo);
                             ("message", Str "Login successful")]))%io)
    (fun error =>
       settled
         (say (ConsoleError "Login error:" error) ;;;
          sendJSON 401 (Obj [("success", Bool false);
                             ("error", Str "Invalid token or authentication failed");
                             ("details", message error)]))%io))%async.

(** [handleGoogleLogin] sets the two listeners and returns; nothing waits
    for the listener of ['end']. *)
Definition handleGoogleLogin (req : Request) : IO unit :=
  detached (onEnd (receivedBody req)).

(** The listener given to [http.createServer]. *)
Definition requestListener (req : Request) : IO unit :=
  let base := "http://" ++ match host req with
                           | Some name => name
                           | None => "undefined"
                           end in
  pathname <- lift_io (URL_pathname pf (url req) base) ;;
  if method req =? "OPTIONS" then handleCORS
  else if (pathname =? "/login-with-google") && (method req =? "POST")
  then handleGoogleLogin req
  else if (pathname =? "/health") && (method req =? "GET")
  then sendJSON 200 (Obj [("status", Str "ok");
                          ("message", Str "Server is running")])
  else sendJSON 404 (Obj [("error", Str "Not found")]).

End Http.

(** ** The mail script *)

Module Mail.

(** The message given to [transporter.sendMail]. *)
Record Message : Type := {
  from : value;
  to : value;
  subject : value;
  text : value;
  html : value
}.

Record Config : Type := {
  host : string;
  port : Z;
  secure : bool;
  auth_user : string;
  auth_pass : string
}.

(** The process the script runs in: two environment variables (after
    dotenv, if there), the command-line arguments that follow the script,
    and nodemailer: what [sendMail] of a transporter made from a
    configuration answers. *)
Record Process : Type := {
  EMAIL_USER : option string;
  EMAIL_PASS : option string;
  argv : list string;
  createTransport : Config -> Message -> Completion value
}.

Inductive Event : Type :=
| Log (args : list value)
| LogError (label : string) (err : error)
| SendMail (message : Message)
| Exit (code : Z).

Local Open Scope io_scope.

(** [variable || fallback], for a string that may be missing. *)
Definition orElse (variable : option string) (fallback : string) : string :=
  match variable with
  | Some s => if s =? "" then fallback else s
  | None => fallback
  end.

(** [process.env.NAME] as a value. *)
Definition env (variable : option string) : value :=
  match variable with
  | Some s => Str s
  | None => Undefined
  end.

Section Script.

Variable ps : Process.

Definition config : Config := {|
  host := "smtp.ionos.it";
  port := 587;
  secure := false;
  auth_user := orElse (EMAIL_USER ps) "your-email@gmail.com";
  auth_pass := orElse (EMAIL_PASS ps) "your-app-password"
|}.

Definition transporter : Message -> Completion value := createTransport ps config.

Definition sendEmail (to subject text html : value) : Run Event value :=
  say (Log [env (EMAIL_USER ps)]) ;;;
  say (Log [env (EMAIL_PASS ps)]) ;;;
  tryCatch
    (let message := {| from := Str (auth_user config);
                       to := to;
                       subject := subject;
                       text := text;
                       html := if ToBoolean html then html else text |} in
     say (SendMail message) ;;;
     info <- lift_io (transporter message) ;;
     info_messageId <- lift_io (get info "messageId") ;;
     say (Log [Str "Email inviata:"; info_messageId]) ;;;
     unit_io info)
    (fun error =>
       say (LogError "Errore invio email:" error) ;;;
       lift_io (Throw error)).

(** The block run when the file is the main module. *)
Definition main : Run Event unit :=
  let to := orElse (nth_error (argv ps) 0) "destinatario@example.com" in
  let subject := orElse (nth_error (argv ps) 1) "Test Email" in
  let text := orElse (nth_error (argv ps) 2) "Questo è un messaggio di test." in
  tryCatch
    (sendEmail (Str to) (Str subject) (Str text) Undefined ;;;
     say (Exit 0))
    (fun _ => say (Exit 1)).

End Script.

End Mail.

(** ** The socket server *)

Module Tabellone.

Definition SocketId : Type := string.

(** The rooms of the socket.io server: who is in which, for the rooms the
    server itself makes sockets join (the room socket.io gives every socket
    under its own id is never addressed here).  A socket that disconnects
    leaves every room. *)
Definition Rooms : Type := list (string * SocketId).

Definition members (room : string) (rooms : Rooms) : list SocketId :=
  map snd (filter (fun entry => fst entry =? room) rooms).

Definition join (room : string) (id : SocketId) (rooms : Rooms) : Rooms :=
  if existsb (fun entry => (fst entry =? room) && (snd entry =? id)) rooms
  then rooms
  else (rooms ++ [(room, id)])%list.

Definition leaveAll (id : SocketId) (rooms : Rooms) : Rooms :=
  filter (fun entry => negb (snd entry =? id)) rooms.

(** What reaches the server: a new connection, a ['chiama'] event from a
    socket, the disconnection of a socket with its reason. *)
Inductive Input : Type :=
| Connection (id : SocketId)
| Chiama (id : SocketId) (numero : value)
| Disconnect (id : SocketId) (reason : string).

Inductive Output : Type :=
| Log (args : list value)
| Emit (target : SocketId) (event : string) (arg : value).

(** [socket.to(room).emit(event, arg)]: to everyone in the room but the
    socket itself. *)
Definition toRoomEmit (sender : SocketId) (room event : string) (arg : value)
    (rooms : Rooms) : list Output :=
  map (fun target => Emit target event arg)
      (filter (fun target => negb (target =? sender)) (members room rooms)).

(** The handlers of the server.  In the ['disconnect'] handler the
    parameter, the reason, hides the socket: what is logged is the [id] of a
    string. *)
Definition handle (rooms : Rooms) (input : Input) : Rooms * list Output :=
  match input with
  | Connection id =>
      (join "tabellone" id rooms,
       [Log [Str "nuova connessione"; Str id]])
  | Chiama id numero =>
      (rooms,
       Log [Str "è stato chiamato il numero "; numero]
       :: toRoomEmit id "tabellone" "mostra-numero" numero rooms)
  | Disconnect id reason =>
      (leaveAll id rooms,
       [Log [Str "socket disconnessa";
             match get (Str reason) "id" with
             | Normal socket_id => socket_id
             | Throw _ => Undefined
             end]])
  end.

(** The server from its start, through a history of inputs. *)
Fixpoint run (rooms : Rooms) (history : list Input) : Rooms * list Output :=
  match history with
  | [] => (rooms, [])
  | input :: rest =>
      let (rooms', out) := handle rooms input in
      let (final, out') := run rooms' rest in
      (final, (out ++ out')%list)
  end.

End Tabellone.

(** ** A runtime for the examples *)

Module Fixture.

(** A reader for the JSON documents of the examples: objects, arrays,
    strings without escapes, integers, [true], [false] and [null], with no
    white space between the tokens. *)
Fixpoint readDigits (s : string) (acc : Z) : Z * string :=
  match s with
  | String c rest =>
      let d := Z.of_nat (nat_of_ascii c) in
      if ((48 <=? d) && (d <=? 57))%Z
      then readDigits rest (10 * acc + (d - 48))%Z
      else (acc, s)
  | EmptyString => (acc, s)
  end.

Fixpoint readString (s : string) : option (string * string) :=
  match s with
  | EmptyString => None
  | String c rest =>
      if Ascii.eqb c "034"%char then Some (EmptyString, rest)
      else if Ascii.eqb c "092"%char then None
      else match readString rest with
           | Some (text, rest') => Some (String c text, rest')
           | None => None
           end
  end.

Definition isDigit (c : ascii) : bool :=
  let d := Z.of_nat (nat_of_ascii c) in ((48 <=? d) && (d <=? 57))%Z.

Fixpoint readValue (fuel : nat) (s : string) : option (value * string) :=
  match fuel with
  | O => None
  | S fuel =>
      match s with
      | String "n" (String "u" (String "l" (String "l" rest))) => Some (Null, rest)
      | String "t" (String "r" (String "u" (String "e" rest))) => Some (Bool true, rest)
      | String "f" (String "a" (String "l" (String "s" (String "e" rest)))) =>
          Some (Bool false, rest)
      | String "[" (String "]" rest) => Some (Arr [], rest)
      | String "[" rest =>
          match readElements fuel rest with
          | Some (elements, rest') => Some (Arr elements, rest')
          | None => None
          end
      | String "{" (String "}" rest) => Some (Obj [], rest)
      | String "{" rest =>
          match readMembers fuel rest with
          | Some (properties, rest') => Some (Obj properties, rest')
          | None => None
          end
      | String "-" (String c rest) =>
          if isDigit c
          then let (x, rest') := readDigits (String c rest) 0 in Some (Num (- x), rest')
          else None
      | String c rest =>
          if Ascii.eqb c "034"%char then
            match readString rest with
            | Some (text, rest') => Some (Str text, rest')
            | None => None
            end
          else if isDigit c
          then let (x, rest') := readDigits s 0 in Some (Num x, rest')
          else None
      | EmptyString => None
      end
  end
with readElements (fuel : nat) (s : string) : option (list value * string) :=
  match fuel with
  | O => None
  | S fuel =>
      match readValue fuel s with
      | Some (v, String "," rest) =>
          match readElements fuel rest with
          | Some (vs, rest') => Some (v :: vs, rest')
          | None => None
          end
      | Some (v, String "]" rest) => Some ([v], rest)
      | _ => None
      end
  end
with readMembers (fuel : nat) (s : string) : option (list (string * value) * string) :=
  match fuel with
  | O => None
  | S fuel =>
      match s with
      | String c rest =>
          if Ascii.eqb c "034"%char then
            match readString rest with
            | Some (name, String ":" rest') =>
                match readValue fuel rest' with
                | Some (v, String "," rest'') =>
                    match readMembers fuel rest'' with
                    | Some (ms, rest3) => Some ((name, v) :: ms, rest3)
                    | None => None
                    end
                | Some (v, String "}" rest'') => Some ([(name, v)], rest'')
                | _ => None
                end
            | _ => None
            end
          else None
      | EmptyString => None
      end
  end.

Definition readJSON (text : string) : Completion value :=
  match readValue (S (String.length text)) text with
  | Some (v, EmptyString) => Normal v
  | _ => Throw SyntaxError
  end.

(** Buffers of ASCII bytes, as the examples have them, decode to the same
    characters. *)
Definition toText (b : Buffer) : string :=
  string_of_list_ascii (map (fun x => ascii_of_nat (Z.to_nat x)) b).

(** The key set the examples' identity provider publishes (written with
    single quotes for double ones). *)
Definition jwks : string :=
  Str.replaceAll "'" "034"
    "{'keys':[{'kid':'k0','kty':'RSA','n':'AQAB','e':'AQAB'},{'kid':'k1','kty':'RSA','n':'sXch','e':'AQAB'}]}".

Definition testCreatePublicKey (jwk : JWK) : Completion KeyObject :=
  match kty jwk, n jwk with
  | Str "RSA", Str "AQAB" => Normal (KeyHandle 0)
  | Str "RSA", Str "sXch" => Normal (KeyHandle 1)
  | _, _ => Throw (SystemError "ERR_CRYPTO_INVALID_JWK")
  end.

(** A stand-in for RSA: key 1 signs every message with the bytes 1, 2, 3. *)
Definition testVerify (algorithm data : string) (key : KeyObject) (signature : Buffer)
    : Completion bool :=
  match key, signature with
  | KeyHandle 1%N, [1; 2; 3]%Z => Normal (algorithm =? "RSA-SHA256")
  | _, _ => Normal false
  end.

(** The number a text of decimal digits stands for, 0 for the empty text,
    NaN for other texts. *)
Definition digitsToNumber (text : string) : option Z :=
  match readDigits text 0 with
  | (x, EmptyString) => Some x
  | _ => None
  end.

(** [ToPrimitive] on what [JSON.parse] returns.  An object has the methods
    of [Object.prototype] unless a property of its own hides them: with a
    [toString] of its own, which is no function, nothing gives a primitive;
    without, the answer is ["[object Object]"].  An array gives its elements
    joined by commas, [null] as the empty text. *)
Fixpoint toPrimitive (v : value) : Completion string :=
  match v with
  | Undefined | Null => Normal ""
  | Bool true => Normal "true"
  | Bool false => Normal "false"
  | Num z => Normal (DecimalString.NilZero.string_of_int (Z.to_int z))
  | Str text => Normal text
  | Arr elements =>
      (fix items (l : list value) : Completion string :=
         match l with
         | [] => Normal ""
         | x :: rest =>
             match toPrimitive x, rest with
             | Throw err, _ => Throw err
             | Normal first, [] => Normal first
             | Normal first, _ =>
                 match items rest with
                 | Normal others => Normal (first ++ "," ++ others)
                 | Throw err => Throw err
                 end
             end
         end) elements
  | Obj properties =>
      match lookup "toString" properties with
      | Some _ => Throw TypeError
      | None => Normal "[object Object]"
      end
  end.

Definition runtime : Runtime := {|
  Date_now := 1700000000123;
  JSON_parse := readJSON;
  Buffer_toString := toText;
  StringToNumber := digitsToNumber;
  ToPrimitive := toPrimitive;
  https_get := fun url => if url =? GOOGLE_JWKS_URL then Normal jwks
                          else Throw (SystemError "ENOTFOUND");
  crypto_createPublicKey := testCreatePublicKey;
  crypto_verify := testVerify
|}.

(** Encoded headers: [{"alg":"RS256","kid":"k1"}], the same with
    [alg] ["none"], and the same with [kid] ["k9"]. *)
Definition header_RS256 : string := "eyJhbGciOiJSUzI1NiIsImtpZCI6ImsxIn0".
Definition header_none : string := "eyJhbGciOiJub25lIiwia2lkIjoiazEifQ".
Definition header_k9 : string := "eyJhbGciOiJSUzI1NiIsImtpZCI6Ims5In0".

(** Encoded payloads.  [claims] is
    [{"iss":"accounts.google.com","aud":CLIENT_ID,"sub":"7","exp":2000000000}];
    the others differ in one claim: no [exp], [exp] 1000000000,
    [aud] ["48315565897"], no [aud], [iss] ["accounts.google.com.evil.example"]. *)
Definition claims : string :=
  "eyJpc3MiOiJhY2NvdW50cy5nb29nbGUuY29tIiwiYXVkIjoiNDgzMTU1NjU4OTctNmkzNDAzdW9mNjE3YXZuZWw2Mml1M2poY3FvNzB1ODEuYXBwcy5nb29nbGV1c2VyY29udGVudC5jb20iLCJzdWIiOiI3IiwiZXhwIjoyMDAwMDAwMDAwfQ".
Definition claims_no_exp : string :=
  "eyJpc3MiOiJhY2NvdW50cy5nb29nbGUuY29tIiwiYXVkIjoiNDgzMTU1NjU4OTctNmkzNDAzdW9mNjE3YXZuZWw2Mml1M2poY3FvNzB1ODEuYXBwcy5nb29nbGV1c2VyY29udGVudC5jb20iLCJzdWIiOiI3In0".
Definition claims_expired : string :=
  "eyJpc3MiOiJhY2NvdW50cy5nb29nbGUuY29tIiwiYXVkIjoiNDgzMTU1NjU4OTctNmkzNDAzdW9mNjE3YXZuZWw2Mml1M2poY3FvNzB1ODEuYXBwcy5nb29nbGV1c2VyY29udGVudC5jb20iLCJzdWIiOiI3IiwiZXhwIjoxMDAwMDAwMDAwfQ".
Definition claims_prefix_aud : string :=
  "eyJpc3MiOiJhY2NvdW50cy5nb29nbGUuY29tIiwiYXVkIjoiNDgzMTU1NjU4OTciLCJzdWIiOiI3IiwiZXhwIjoyMDAwMDAwMDAwfQ".
Definition claims_no_aud : string :=
  "eyJpc3MiOiJhY2NvdW50cy5nb29nbGUuY29tIiwic3ViIjoiNyIsImV4cCI6MjAwMDAwMDAwMH0".
Definition claims_other_iss : string :=
  "eyJpc3MiOiJhY2NvdW50cy5nb29nbGUuY29tLmV2aWwuZXhhbXBsZSIsImF1ZCI6IjQ4MzE1NTY1ODk3LTZpMzQwM3VvZjYxN2F2bmVsNjJpdTNqaGNxbzcwdTgxLmFwcHMuZ29vZ2xldXNlcmNvbnRlbnQuY29tIiwic3ViIjoiNyIsImV4cCI6MjAwMDAwMDAwMH0".

(** The claims of [claims] with [{"toString":1}] for [exp]. *)
Definition claims_object_exp : string :=
  "eyJpc3MiOiJhY2NvdW50cy5nb29nbGUuY29tIiwiYXVkIjoiNDgzMTU1NjU4OTctNmkzNDAzdW9mNjE3YXZuZWw2Mml1M2poY3FvNzB1ODEuYXBwcy5nb29nbGV1c2VyY29udGVudC5jb20iLCJzdWIiOiI3IiwiZXhwIjp7InRvU3RyaW5nIjoxfX0".

(** The signature bytes 1, 2, 3, and the bytes 1, 2, 4. *)
Definition signed : string := "AQID".
Definition forged : string := "AQIE".

Definition token (header payload signature : string) : string :=
  header ++ "." ++ payload ++ "." ++ signature.

(** The tokens of the examples. *)
Definition good : string := token header_RS256 claims signed.
Definition unsigned : string := token header_none claims signed.
Definition otherKey : string := token header_k9 claims signed.
Definition noExp : string := token header_RS256 claims_no_exp signed.
Definition old : string := token header_RS256 claims_expired signed.
Definition prefixAud : string := token header_RS256 claims_prefix_aud signed.
Definition noAud : string := token header_RS256 claims_no_aud signed.
Definition otherIss : string := token header_RS256 claims_other_iss signed.
Definition objectExp : string := token header_RS256 claims_object_exp signed.

(** What [parseJWT] returns on a token of the examples. *)
Definition parsed (token : string) : ParsedJWT :=
  match parseJWT runtime token with
  | Normal p => p
  | Throw _ => {| header := Undefined; payload := Undefined;
                  signature := ""; raw := [] |}
  end.

End Fixture.

(** ** A platform and requests for the examples *)

Module HttpFixture.

Definition quote : string := String "034"%char "".

(** A writer for JSON values whose strings need no escapes; a member whose
    value is [undefined] is left out. *)
Fixpoint writeJSON (v : value) : string :=
  match v with
  | Undefined | Null => "null"
  | Bool true => "true"
  | Bool false => "false"
  | Num z => DecimalString.NilZero.string_of_int (Z.to_int z)
  | Str text => quote ++ text ++ quote
  | Arr elements =>
      "[" ++ (fix items (l : list value) : string :=
                match l with
                | [] => ""
                | x :: rest =>
                    writeJSON x ++ match rest with
                                   | [] => ""
                                   | _ => "," ++ items rest
                                   end
                end) elements ++ "]"
  | Obj properties =>
      "{" ++ (fix members (l : list (string * value)) (first : bool) : string :=
                match l with
                | [] => ""
                | (_, Undefined) :: rest => members rest first
                | (name, x) :: rest =>
                    (if first then "" else ",")
                    ++ quote ++ name ++ quote ++ ":" ++ writeJSON x
                    ++ members rest false
                end) properties true ++ "}"
  end.

(** The path of a request target: what precedes the query. *)
Fixpoint pathOf (target : string) : string :=
  match target with
  | EmptyString => EmptyString
  | String c rest => if Ascii.eqb c "?" then EmptyString else String c (pathOf rest)
  end.

Definition platform : Platform := {|
  JSON_stringify := writeJSON;
  URL_pathname := fun input _ =>
    match input with
    | String "/" _ => Normal (pathOf input)
    | _ => Throw TypeError
    end;
  runtime_message := fun err =>
    match err with
    | Error text => text
    | TypeError => "token.split is not a function"
    | SyntaxError => "Unexpected token"
    | SystemError code => code
    end;
  https_answers := fun _ => true
|}.

(** The same platform behind a network that swallows every request. *)
Definition silent : Platform := {|
  JSON_stringify := JSON_stringify platform;
  URL_pathname := URL_pathname platform;
  runtime_message := runtime_message platform;
  https_answers := fun _ => false
|}.

(** The bytes of an ASCII text. *)
Definition bytesOf (text : string) : Buffer :=
  map (fun c => Z.of_nat (nat_of_ascii c)) (list_ascii_of_string text).

(** A [POST /login-with-google] whose body, in two chunks, is
    [{"token":...}] with the given JSON text for the token. *)
Definition loginWith (tokenText : string) : Request := {|
  method := "POST";
  url := "/login-with-google";
  host := Some "localhost:3333";
  chunks := [bytesOf (Str.replaceAll "'" "034" "{'token':"); bytesOf (tokenText ++ "}")]
|}.

Definition login (token : string) : Request := loginWith (quote ++ token ++ quote).

(** A runtime with the network down. *)
Definition offline : Runtime := {|
  Date_now := Date_now Fixture.runtime;
  JSON_parse := JSON_parse Fixture.runtime;
  Buffer_toString := Buffer_toString Fixture.runtime;
  StringToNumber := StringToNumber Fixture.runtime;
  ToPrimitive := ToPrimitive Fixture.runtime;
  https_get := fun _ => Throw (SystemError "ENOTFOUND");
  crypto_createPublicKey := crypto_createPublicKey Fixture.runtime;
  crypto_verify := crypto_verify Fixture.runtime
|}.

(** A runtime whose key-set endpoint answers [{"keys":{}}]. *)
Definition noArray : Runtime := {|
  Date_now := Date_now Fixture.runtime;
  JSON_parse := JSON_parse Fixture.runtime;
  Buffer_toString := Buffer_toString Fixture.runtime;
  StringToNumber := StringToNumber Fixture.runtime;
  ToPrimitive := ToPrimitive Fixture.runtime;
  https_get := fun _ => Normal (Str.replaceAll "'" "034" "{'keys':{}}");
  crypto_createPublicKey := crypto_createPublicKey Fixture.runtime;
  crypto_verify := crypto_verify Fixture.runtime
|}.

(** Tokens whose payload is [null], and whose payload is not JSON. *)
Definition nullPayload : string := Fixture.token Fixture.header_RS256 "bnVsbA" Fixture.signed.
Definition notJSON : string := Fixture.token Fixture.header_RS256 "bm9wZQ" Fixture.signed.

End HttpFixture.

(** ** A mail process for the examples *)

Module MailFixture.

(** A process whose SMTP server refuses the credentials. *)
Definition refused : Mail.Process := {|
  Mail.EMAIL_USER := Some "me@example.com";
  Mail.EMAIL_PASS := None;
  Mail.argv := [];
  Mail.createTransport := fun _ _ => Throw (SystemError "EAUTH")
|}.

End MailFixture.

(** * The vocabulary of the properties *)

Unset Implicit Arguments.

(** [k] padding characters. *)
Fixpoint equals (k : nat) : string :=
  match k with
  | O => ""
  | S k => "=" ++ equals k
  end.

(** An 8-bit value. *)
Definition isByte (b : Z) : Prop := (0 <= b < 256)%Z.

(** The two replacements of [base64UrlDecode]. *)
Definition toStandardAlphabet (str : string) : string :=
  Str.replaceAll "_" "/" (Str.replaceAll "-" "+" str).


(** The issuers VERIFICA 3 compares with. *)
Definition expectedIssuers : list string :=
  ["https://accounts.google.com"; "accounts.google.com"].

(** [iss] is one of them, as a string. *)
Definition isExpectedIssuer (iss : value) : Prop :=
  exists s, iss = Str s /\ In s expectedIssuers.

Section Vocabulary.

Variable rt : Runtime.
Variables (header payload : value) (signature : string) (raw : list string).

(** What [verifyJWT] signs off on: the two first segments and a dot. *)
Definition signingInput : string := nth 0 raw "" ++ "." ++ nth 1 raw "".

(** VERIFICA 4, the part of [verifyParsed] after the three claim checks. *)
Definition keyAndSignature : Eff value :=
  keys <- fetchGooglePublicKeys rt ;;
  keys_keys <- lift (get keys "keys") ;;
  key <- Array_find keys_keys (sameKid header) ;;
  throwIf (negb (ToBoolean key)) (Error "Public key not found") ;;;
  signatureBuffer <- lift (base64UrlDecode signature) ;;
  key_kty <- lift (get key "kty") ;;
  key_n <- lift (get key "n") ;;
  key_e <- lift (get key "e") ;;
  publicKey <- createPublicKey rt {| kty := key_kty; n := key_n; e := key_e |} ;;
  isValid <- Verify_verify rt (Verify_update (createVerify "RSA-SHA256") signingInput)
               publicKey signatureBuffer ;;
  throwIf (negb isValid) (Error "Invalid token signature") ;;;
  ret payload.

(** The three claim checks, in the order of the code: either one of them
    stops the verification before anything outside is reached, or all three
    pass and the key fetch follows. *)
Inductive ClaimsOutcome : Prop :=
| StoppedAtExpiry (err : error)
    (Hexp : expired rt payload (currentSeconds rt) = Normal true /\
            err = Error "Token has expired"
            \/ expired rt payload (currentSeconds rt) = Throw err)
    (Hv : verifyParsed rt header payload signature raw = (Throw err, []))
| StoppedAtAudience (err : error)
    (Hexp : expired rt payload (currentSeconds rt) = Normal false)
    (Haud : audienceMismatch payload = Normal true /\
            err = Error "Token audience mismatch"
            \/ audienceMismatch payload = Throw err)
    (Hv : verifyParsed rt header payload signature raw = (Throw err, []))
| StoppedAtIssuer (err : error)
    (Hexp : expired rt payload (currentSeconds rt) = Normal false)
    (Haud : audienceMismatch payload = Normal false)
    (Hiss : issuerMismatch payload = Normal true /\
            err = Error "Invalid token issuer"
            \/ issuerMismatch payload = Throw err)
    (Hv : verifyParsed rt header payload signature raw = (Throw err, []))
| ClaimsPassed
    (Hexp : expired rt payload (currentSeconds rt) = Normal false)
    (Haud : audienceMismatch payload = Normal false)
    (Hiss : issuerMismatch payload = Normal false)
    (Hv : verifyParsed rt header payload signature raw = keyAndSignature).

(** VERIFICA 4 either stops before OpenSSL is asked to verify anything, or
    asks it once: with RSA-SHA256, over the signing input, with the decoded
    third segment as the signature, and follows its answer. *)
Inductive SignatureOutcome : Prop :=
| StoppedBeforeVerify (err : error) (t : list Event)
    (Ht : t = [HttpsGet GOOGLE_JWKS_URL]
          \/ exists jwk, t = [HttpsGet GOOGLE_JWKS_URL; CreatePublicKey jwk])
    (Hv : keyAndSignature = (Throw err, t))
| AskedToVerify (jwk : JWK) (key : KeyObject) (sig : Buffer) (r : Completion value)
    (Hsig : base64UrlDecode signature = Normal sig)
    (Hr : match crypto_verify rt "RSA-SHA256" signingInput key sig with
          | Normal true => r = Normal payload
          | Normal false => r = Throw (Error "Invalid token signature")
          | Throw err => r = Throw err
          end)
    (Hv : keyAndSignature
          = (r, [HttpsGet GOOGLE_JWKS_URL; CreatePublicKey jwk;
                 VerifySignature "RSA-SHA256" signingInput key sig])).

End Vocabulary.

(** ** More vocabulary: keys, payloads, responses *)

(** [v.name], [undefined] where the read would throw. *)
Definition field (v : value) (name : string) : value :=
  match get v name with
  | Normal x => x
  | Throw _ => Undefined
  end.

(** The JWK [verifyJWT] builds from a record of the key set. *)
Definition jwkOf (k : value) : JWK :=
  {| kty := field k "kty"; n := field k "n"; e := field k "e" |}.

(** The record [k] carries the [kid] of [header], by [===]. *)
Definition hasKidOf (header k : value) : Prop :=
  exists kk hk, get k "kid" = Normal kk /\ get header "kid" = Normal hk /\
                strict_eq kk hk = true.

(** The record [k] has a [kid], and it is not the one of [header]. *)
Definition hasOtherKid (hk k : value) : Prop :=
  exists kk, get k "kid" = Normal kk /\ strict_eq kk hk = false.

(** The text [parseJWT] hands to [JSON.parse] for a segment. *)
Definition decodedText (rt : Runtime) (segment : string) : string :=
  match base64UrlDecode segment with
  | Normal bytes => Buffer_toString rt bytes
  | Throw _ => ""
  end.

(** Every character is one of the 64 of the alphabet (either variant). *)
Fixpoint allInAlphabet (s : string) : bool :=
  match s with
  | EmptyString => true
  | String c rest =>
      match Base64.unbase64 c with
      | Some _ => allInAlphabet rest
      | None => false
      end
  end.

(** The headers [sendJSON] writes, and those of [handleCORS]. *)
Definition corsHeaders : list (string * string) :=
  [("Access-Control-Allow-Origin", "*");
   ("Access-Control-Allow-Methods", "GET, POST, OPTIONS");
   ("Access-Control-Allow-Headers", "Content-Type")].

Definition jsonHeaders : list (string * string) :=
  ("Content-Type", "application/json") :: corsHeaders.

(** The part of a trace that is the response. *)
Definition isResponse (out : Output) : bool :=
  match out with
  | WriteHead _ _ | EndResponse _ => true
  | _ => false
  end.

Definition responses (t : list Output) : list Output := filter isResponse t.

(** The token a request body carries: [data.token], [undefined] when the
    body is not JSON or has none. *)
Definition tokenOf (rt : Runtime) (req : Request) : value :=
  field (parseJSON rt (receivedBody rt req)) "token".

(** The [user] of a successful login. *)
Definition userInfoOf (payload : value) : value :=
  Obj [("id", field payload "sub");
       ("email", field payload "email");
       ("name", field payload "name");
       ("picture", field payload "picture");
       ("emailVerified", field payload "email_verified")].

(** The three bodies of the login route. *)
Definition tokenRequired : value :=
  Obj [("success", Bool false); ("error", Str "Token is required")].

Definition loginFailed (details : value) : value :=
  Obj [("success", Bool false);
       ("error", Str "Invalid token or authentication failed");
       ("details", details)].

Definition loginSuccessful (payload : value) : value :=
  Obj [("success", Bool true);
       ("user", userInfoOf payload);
       ("message", Str "Login successful")].

(** The base the listener resolves the request URL against. *)
Definition baseOf (req : Request) : string :=
  "http://" ++ match host req with
               | Some name => name
               | None => "undefined"
               end.

(** The request is a [POST] to [/login-with-google]. *)
Definition isLoginRequest (pf : Platform) (req : Request) : Prop :=
  method req = "POST" /\
  URL_pathname pf (url req) (baseOf req) = Normal "/login-with-google".

(** An array or an object: what [<] has to turn into a primitive. *)
Definition isObject (v : value) : bool :=
  match v with
  | Arr _ | Obj _ => true
  | _ => false
  end.

(** Every request of the trace is answered. *)
Definition answered (pf : Platform) (t : list Event) : Prop :=
  forall url, In (HttpsGet url) t -> https_answers pf url = true.

(** The body carries a string whose verification gets as far as the request
    for the key set, and that request is never answered. *)
Definition neverAnswered (rt : Runtime) (pf : Platform) (req : Request) : Prop :=
  exists text,
    tokenOf rt req = Str text /\
    In (HttpsGet GOOGLE_JWKS_URL) (trace (verifyJWT rt text)) /\
    https_answers pf GOOGLE_JWKS_URL = false.

(** ** Vocabulary for the mail script and the socket server *)

(** [null] or [undefined]. *)
Definition nullish (v : value) : bool :=
  match v with
  | Undefined | Null => true
  | _ => false
  end.

Definition isSendMail (ev : Mail.Event) : bool :=
  match ev with
  | Mail.SendMail _ => true
  | _ => false
  end.

Definition isExit (ev : Mail.Event) : bool :=
  match ev with
  | Mail.Exit _ => true
  | _ => false
  end.

(** The message [sendEmail] makes of its arguments. *)
Definition messageOf (ps : Mail.Process) (to subject text html : value)
    : Mail.Message :=
  {| Mail.from := Str (Mail.orElse (Mail.EMAIL_USER ps) "your-email@gmail.com");
     Mail.to := to;
     Mail.subject := subject;
     Mail.text := text;
     Mail.html := if ToBoolean html then html else text |}.

(** The message the script sends when run from the command line. *)
Definition commandLineMessage (ps : Mail.Process) : Mail.Message :=
  let text := Str (Mail.orElse (nth_error (Mail.argv ps) 2)
                     "Questo è un messaggio di test.") in
  {| Mail.from := Str (Mail.orElse (Mail.EMAIL_USER ps) "your-email@gmail.com");
     Mail.to := Str (Mail.orElse (nth_error (Mail.argv ps) 0)
                       "destinatario@example.com");
     Mail.subject := Str (Mail.orElse (nth_error (Mail.argv ps) 1) "Test Email");
     Mail.text := text;
     Mail.html := text |}.

(** The exit code that goes with an answer of the transporter. *)
Definition exitCodeFor (answer : Completion value) : Z :=
  match answer with
  | Normal info => if nullish info then 1 else 0
  | Throw _ => 1
  end.

(** The sockets connected after a history, from those connected at its
    start, in the order they came. *)
Fixpoint connectedAfter (connected : list Tabellone.SocketId)
    (history : list Tabellone.Input) : list Tabellone.SocketId :=
  match history with
  | [] => connected
  | Tabellone.Connection id :: rest => connectedAfter (connected ++ [id]) rest
  | Tabellone.Chiama _ _ :: rest => connectedAfter connected rest
  | Tabellone.Disconnect id _ :: rest =>
      connectedAfter (filter (fun other => negb (other =? id)) connected) rest
  end.

(** A history socket.io can produce: a connection brings a new id, events
    and disconnections come from connected sockets. *)
Fixpoint possible (connected : list Tabellone.SocketId)
    (history : list Tabellone.Input) : Prop :=
  match history with
  | [] => True
  | Tabellone.Connection id :: rest =>
      ~ In id connected /\ possible (connected ++ [id]) rest
  | Tabellone.Chiama id _ :: rest => In id connected /\ possible connected rest
  | Tabellone.Disconnect id _ :: rest =>
      In id connected /\
      possible (filter (fun other => negb (other =? id)) connected) rest
  end.

(** * Properties *)

(** ** Strings and the padding loop *)

Lemma length_append (a b : string) :
  String.length (a ++ b) = (String.length a + String.length b)%nat.
Proof. induction a as [|c a IH]; simpl; [reflexivity | now rewrite IH]. Qed.

Lemma append_assoc (a b c : string) : (a ++ b) ++ c = a ++ (b ++ c).
Proof. induction a as [|x a IH]; simpl; [reflexivity | now rewrite IH]. Qed.

(** The loop stops, on a string whose length is a multiple of 4, having
    appended [missing base64] (at most three) padding characters. *)
Lemma pad_spec (base64 : string) :
  (String.length (pad base64) mod 4 = 0)%nat /\
  pad base64 = base64 ++ equals (missing base64) /\
  (missing base64 <= 3)%nat.
Proof.
  funelim (pad base64).
  - (* the loop is not entered *)
    clear Heqcall Heq. split; [exact e0|].
    unfold missing. rewrite e0. simpl. split; [|lia].
    clear. induction base64 as [|c s IH]; simpl; [reflexivity | now rewrite <- IH].
  - (* one more character, then the rest of the loop *)
    clear Heqcall Heq. destruct H as (Hmod & Heq & _).
    split; [assumption|].
    assert (Hm : missing base64 = S (missing (base64 ++ "="))).
    { unfold missing. rewrite length_append. simpl String.length.
      rewrite Nat.Div0.add_mod.
      pose proof (Nat.mod_upper_bound (String.length base64) 4 ltac:(lia)) as B.
      set (m := (String.length base64 mod 4)%nat) in *.
      assert (m = 1 \/ m = 2 \/ m = 3)%nat as [E|[E|E]] by lia; rewrite E; reflexivity. }
    split.
    + rewrite Heq, Hm. simpl. now rewrite append_assoc.
    + unfold missing. pose proof (Nat.mod_upper_bound (4 - String.length base64 mod 4) 4). lia.
Qed.

(** ** The lenient decoder *)

Lemma sextets_stop (s t : string) :
  Base64.sextets (s ++ String "=" t) = Base64.sextets s.
Proof.
  induction s as [|c s IH]; simpl; [reflexivity|].
  destruct (Ascii.eqb c "="); [reflexivity|].
  destruct (Base64.unbase64 c); now rewrite IH.
Qed.

Lemma sextets_equals (s : string) (k : nat) :
  Base64.sextets (s ++ equals k) = Base64.sextets s.
Proof.
  destruct k as [|k]; simpl.
  - f_equal. clear. induction s as [|c s IH]; simpl; [reflexivity | now rewrite IH].
  - apply sextets_stop.
Qed.

Lemma sextets_pad (s : string) : Base64.sextets (pad s) = Base64.sextets s.
Proof.
  destruct (pad_spec s) as (_ & -> & _). apply sextets_equals.
Qed.

(** A character outside the alphabet, other than the padding character,
    contributes nothing. *)
Lemma sextets_skip (a b : string) (c : ascii) :
  Base64.unbase64 c = None -> c <> "="%char ->
  Base64.sextets (a ++ String c b) = Base64.sextets (a ++ b).
Proof.
  intros Hc Hne. induction a as [|x a IH]; simpl.
  - rewrite Hc. destruct (Ascii.eqb_spec c "="); [contradiction | reflexivity].
  - now rewrite IH.
Qed.

Lemma lor_byte (x y : Z) :
  (0 <= x < 256 -> 0 <= y < 256 -> 0 <= Z.lor x y < 256)%Z.
Proof.
  intros Hx Hy. split; [apply Z.lor_nonneg; lia|].
  destruct (Z.eq_dec (Z.lor x y) 0) as [E|E]; [lia|].
  assert (0 < Z.lor x y)%Z by (pose proof (proj2 (Z.lor_nonneg x y)); lia).
  change 256%Z with (2 ^ 8)%Z. apply Z.log2_lt_pow2; [assumption|].
  rewrite Z.log2_lor by lia.
  assert (Lx : (Z.log2 x < 8)%Z).
  { destruct (Z.eq_dec x 0) as [->|]; [reflexivity|].
    apply Z.log2_lt_pow2; [lia | change (2 ^ 8)%Z with 256%Z; lia]. }
  assert (Ly : (Z.log2 y < 8)%Z).
  { destruct (Z.eq_dec y 0) as [->|]; [reflexivity|].
    apply Z.log2_lt_pow2; [lia | change (2 ^ 8)%Z with 256%Z; lia]. }
  lia.
Qed.

Lemma land_mask (x m : Z) : (0 <= m -> 0 <= Z.land x m <= m)%Z.
Proof.
  intros Hm. split.
  - apply Z.land_nonneg. now right.
  - destruct (Z.eq_dec (Z.land x m) 0) as [E|E]; [lia|].
    apply Z.ldiff_le; [assumption|].
    apply Z.bits_inj'. intros k Hk.
    rewrite Z.ldiff_spec, Z.land_spec, Z.bits_0.
    destruct (Z.testbit x k), (Z.testbit m k); reflexivity.
Qed.

Lemma octet_range (hi lo maskHi maskLo up down : Z) :
  (0 <= maskHi -> 0 <= maskLo -> 0 <= up -> 0 <= down ->
   maskHi * 2 ^ up < 256 -> maskLo < 256 ->
   isByte (Z.lor (Z.shiftl (Z.land hi maskHi) up) (Z.shiftr (Z.land lo maskLo) down)))%Z.
Proof.
  intros HmH HmL Hup Hdown Hhi Hlo.
  pose proof (land_mask hi _ HmH) as [H1 H2].
  pose proof (land_mask lo _ HmL) as [H3 H4].
  apply lor_byte.
  - rewrite Z.shiftl_mul_pow2 by assumption.
    assert (0 < 2 ^ up)%Z by (apply Z.pow_pos_nonneg; lia). nia.
  - rewrite Z.shiftr_div_pow2 by assumption.
    assert (0 < 2 ^ down)%Z by (apply Z.pow_pos_nonneg; lia).
    split; [apply Z.div_pos; lia|].
    apply Z.le_lt_trans with (Z.land lo maskLo); [|lia].
    apply Z.div_le_upper_bound; [lia | nia].
Qed.

(** Whatever the sextets, the decoder produces bytes. *)
Lemma octets_range (l : list Z) : Forall isByte (Base64.octets l).
Proof.
  remember (List.length l) as len eqn:Hlen. revert l Hlen.
  induction len as [len IH] using lt_wf_ind. intros l Hlen.
  destruct l as [|a [|b [|c [|d rest]]]]; cbn [Base64.octets];
    repeat first [apply Forall_nil | apply Forall_cons].
  - apply (@octet_range a b 63 48 2 4); lia.
  - apply (@octet_range a b 63 48 2 4); lia.
  - apply (@octet_range b c 15 60 4 2); lia.
  - apply (@octet_range a b 63 48 2 4); lia.
  - apply (@octet_range b c 15 60 4 2); lia.
  - change (Z.land d 63) with (Z.shiftr (Z.land d 63) 0).
    apply (@octet_range c d 3 63 6 0); lia.
  - apply (IH (List.length rest)); [subst len; simpl; lia | reflexivity].
Qed.

Lemma toStandardAlphabet_insert (a b : string) (c : ascii) :
  Base64.unbase64 c = None ->
  toStandardAlphabet (a ++ String c b)
  = toStandardAlphabet a ++ String c (toStandardAlphabet b).
Proof.
  intros Hc. unfold toStandardAlphabet.
  induction a as [|x a IH]; simpl.
  - destruct (Ascii.eqb_spec c "-") as [->|]; [discriminate Hc|].
    destruct (Ascii.eqb_spec c "_") as [->|]; [discriminate Hc|]. reflexivity.
  - now rewrite IH.
Qed.

Lemma toStandardAlphabet_append (a b : string) :
  toStandardAlphabet (a ++ b) = toStandardAlphabet a ++ toStandardAlphabet b.
Proof.
  unfold toStandardAlphabet. induction a as [|x a IH]; simpl; [reflexivity | now rewrite IH].
Qed.

Lemma base64UrlDecode_eq (str : string) :
  base64UrlDecode str
  = Normal (Base64.octets (Base64.sextets (toStandardAlphabet str))).
Proof.
  unfold base64UrlDecode, Base64.Buffer_from. fold (toStandardAlphabet str).
  now rewrite sextets_pad.
Qed.

(** C9.  [base64UrlDecode] is total: on every input string, the empty one
    and those with characters outside the alphabet included, the padding
    loop terminates and the call returns a buffer of bytes; it never
    throws. *)
Theorem base64UrlDecode_total (str : string) :
  exists bytes : Buffer,
    base64UrlDecode str = Normal bytes /\ Forall isByte bytes.
Proof.
  rewrite base64UrlDecode_eq. eexists. split; [reflexivity|]. apply octets_range.
Qed.

(** C8, as the code has it.  The decoder never fails: the padding loop always
    brings the length to a multiple of 4, a character outside the alphabet
    (other than the padding character) is skipped as if it were not there,
    and the call returns the bytes of the characters that remain. *)
Theorem base64UrlDecode_lenient (str : string) :
  (String.length (pad (toStandardAlphabet str)) mod 4 = 0)%nat /\
  isNormal (base64UrlDecode str) = true /\
  forall (a b : string) (c : ascii),
    str = a ++ String c b ->
    Base64.unbase64 c = None -> c <> "="%char ->
    base64UrlDecode str = base64UrlDecode (a ++ b).
Proof.
  split; [apply pad_spec|]. split; [now rewrite base64UrlDecode_eq|].
  intros a b c -> Hc Hne. rewrite !base64UrlDecode_eq.
  rewrite toStandardAlphabet_insert, toStandardAlphabet_append by assumption.
  now rewrite sextets_skip.
Qed.

Lemma base64UrlDecode_lenient_witness :
  base64UrlDecode "SG!k" = base64UrlDecode "SGk".
Proof.
  apply (proj2 (proj2 (base64UrlDecode_lenient "SG!k")) "SG" "k" "!"%char);
    [reflexivity | reflexivity | discriminate].
Defined.

(** C8, as the spec has it, fails: ["SG!k"] holds a character outside the
    base64 alphabet, yet the decoder returns the two bytes of ["SGk"]. *)
Lemma base64UrlDecode_accepts_invalid :
  Base64.unbase64 "!" = None /\
  Str.contains "!" "SG!k" = true /\
  base64UrlDecode "SG!k" = Normal [72; 105]%Z.
Proof. repeat split. Qed.

(** ** Computations and their traces *)

Lemma bind_lift_Normal {A B} (a : A) (k : A -> Eff B) :
  bind (lift (Normal a)) k = k a.
Proof. unfold bind, lift. destruct (k a). reflexivity. Qed.

Lemma bind_lift_Throw {A B} (err : error) (k : A -> Eff B) :
  bind (lift (Throw err)) k = (Throw err, []).
Proof. reflexivity. Qed.

Lemma throwIf_true {B} (err : error) (k : unit -> Eff B) :
  bind (throwIf true err) k = (Throw err, []).
Proof. reflexivity. Qed.

Lemma throwIf_false {B} (err : error) (k : unit -> Eff B) :
  bind (throwIf false err) k = k tt.
Proof. unfold bind, throwIf, ret. destruct (k tt). reflexivity. Qed.

Lemma bind_ext {A B} (m : Eff A) (k k' : A -> Eff B) :
  (forall a, k a = k' a) -> bind m k = bind m k'.
Proof. intros H. destruct m as [[a|err] t]; simpl; [now rewrite H | reflexivity]. Qed.

Lemma trace_bind {A B} (m : Eff A) (k : A -> Eff B) :
  trace (bind m k)
  = (trace m ++ match result m with
                | Normal a => trace (k a)
                | Throw _ => []
                end)%list.
Proof.
  destruct m as [[a|err] t]; simpl.
  - destruct (k a); reflexivity.
  - now rewrite app_nil_r.
Qed.

(** The [find] callback of the verifier reaches nothing outside. *)
Lemma sameKid_trace (header k : value) : trace (sameKid header k) = [].
Proof.
  unfold sameKid. destruct (get k "kid") as [kk|err]; [|reflexivity].
  rewrite bind_lift_Normal. destruct (get header "kid"); reflexivity.
Qed.

Lemma find_sameKid_trace (header : value) (ks : list value) :
  trace (find (sameKid header) ks) = [].
Proof.
  induction ks as [|k ks IH]; simpl; [reflexivity|].
  rewrite trace_bind, sameKid_trace. simpl.
  destruct (result (sameKid header k)) as [[|]|]; [reflexivity | exact IH | reflexivity].
Qed.

Lemma Array_find_trace (header array : value) :
  trace (Array_find array (sameKid header)) = [].
Proof. destruct array; try reflexivity. apply find_sameKid_trace. Qed.

Lemma find_ext (f g : value -> Eff bool) (ks : list value) :
  (forall k, f k = g k) -> find f ks = find g ks.
Proof.
  intros H. induction ks as [|k ks IH]; simpl; [reflexivity|].
  rewrite H. apply bind_ext. intros [|]; [reflexivity | exact IH].
Qed.

(** When no record of the key set carries the [kid] of the header, [find]
    returns [undefined]. *)
Lemma find_no_match (header hk : value) (ks : list value) :
  get header "kid" = Normal hk ->
  Forall (fun k => exists kk, get k "kid" = Normal kk /\ strict_eq kk hk = false) ks ->
  find (sameKid header) ks = (Normal Undefined, []).
Proof.
  intros Hh H. induction H as [|k ks (kk & Hk & Hne) _ IH]; simpl; [reflexivity|].
  unfold sameKid at 1. rewrite Hk, bind_lift_Normal, Hh, bind_lift_Normal.
  unfold ret at 1. change (bind (Normal (strict_eq kk hk), []) ?k) with (bind (lift (Normal (strict_eq kk hk))) k).
  rewrite bind_lift_Normal, Hne. exact IH.
Qed.

Lemma strict_eq_Str (v : value) (s : string) :
  strict_eq v (Str s) = true <-> v = Str s.
Proof.
  destruct v; simpl; split; intros H; try discriminate.
  - apply String.eqb_eq in H. now subst.
  - inversion H. apply String.eqb_refl.
Qed.

(** ** Splitting the token *)

Lemma split_nonempty (sep : ascii) (s : string) : Str.split sep s <> [].
Proof.
  destruct s as [|c s]; simpl; [discriminate|].
  destruct (Ascii.eqb c sep); [discriminate|].
  destruct (Str.split sep s); discriminate.
Qed.

(** The segments, joined by the separator, are the string that was split. *)
Lemma join_split (sep : ascii) (s : string) :
  Str.join (String sep "") (Str.split sep s) = s.
Proof.
  induction s as [|c s IH]; simpl; [reflexivity|].
  destruct (Ascii.eqb_spec c sep) as [->|Hne].
  - pose proof (split_nonempty sep s) as Hn.
    destruct (Str.split sep s) as [|seg segs]; [contradiction|].
    simpl in *. now rewrite IH.
  - pose proof (split_nonempty sep s) as Hn.
    destruct (Str.split sep s) as [|seg segs]; [contradiction|].
    destruct segs; simpl in *; now rewrite IH.
Qed.

(** No segment holds the separator. *)
Lemma split_segments (sep : ascii) (s : string) :
  Forall (fun seg => Str.contains sep seg = false) (Str.split sep s).
Proof.
  induction s as [|c s IH]; simpl; [repeat constructor|].
  destruct (Ascii.eqb c sep) eqn:E.
  - constructor; [reflexivity | assumption].
  - destruct (Str.split sep s) as [|seg segs]; [repeat constructor; simpl; now rewrite E|].
    inversion IH; subst. constructor; [simpl; now rewrite E | assumption].
Qed.

(** ** The stages of [verifyJWT] *)

(** One step through a sequence whose first call is known. *)
Ltac step :=
  first [ rewrite bind_lift_Normal | rewrite bind_lift_Throw
        | rewrite throwIf_true | rewrite throwIf_false ];
  cbv beta.

Section Stages.

Variable rt : Runtime.
Variables (header payload : value) (signature : string) (raw : list string).

Let now : Z := currentSeconds rt.
Let verdict : Eff value := verifyParsed rt header payload signature raw.

Lemma stage_expired :
  expired rt payload now = Normal true ->
  verdict = (Throw (Error "Token has expired"), []).
Proof.
  intros H. unfold verdict, verifyParsed. cbv zeta. fold now. rewrite H.
  now repeat step.
Qed.

Lemma stage_expired_throws (err : error) :
  expired rt payload now = Throw err -> verdict = (Throw err, []).
Proof.
  intros H. unfold verdict, verifyParsed. cbv zeta. fold now. rewrite H.
  now repeat step.
Qed.

Lemma stage_audience :
  expired rt payload now = Normal false ->
  audienceMismatch payload = Normal true ->
  verdict = (Throw (Error "Token audience mismatch"), []).
Proof.
  intros H1 H2. unfold verdict, verifyParsed. cbv zeta. fold now. rewrite H1, H2.
  now repeat step.
Qed.

Lemma stage_audience_throws (err : error) :
  expired rt payload now = Normal false ->
  audienceMismatch payload = Throw err -> verdict = (Throw err, []).
Proof.
  intros H1 H2. unfold verdict, verifyParsed. cbv zeta. fold now. rewrite H1, H2.
  now repeat step.
Qed.

Lemma stage_issuer :
  expired rt payload now = Normal false ->
  audienceMismatch payload = Normal false ->
  issuerMismatch payload = Normal true ->
  verdict = (Throw (Error "Invalid token issuer"), []).
Proof.
  intros H1 H2 H3. unfold verdict, verifyParsed. cbv zeta. fold now.
  rewrite H1, H2, H3.
  now repeat step.
Qed.

Lemma stage_issuer_throws (err : error) :
  expired rt payload now = Normal false ->
  audienceMismatch payload = Normal false ->
  issuerMismatch payload = Throw err -> verdict = (Throw err, []).
Proof.
  intros H1 H2 H3. unfold verdict, verifyParsed. cbv zeta. fold now.
  rewrite H1, H2, H3.
  now repeat step.
Qed.

Lemma stage_key :
  expired rt payload now = Normal false ->
  audienceMismatch payload = Normal false ->
  issuerMismatch payload = Normal false ->
  verdict = keyAndSignature rt header payload signature raw.
Proof.
  intros H1 H2 H3. unfold verdict, verifyParsed. cbv zeta. fold now.
  rewrite H1, H2, H3.
  do 6 step. reflexivity.
Qed.

Lemma claims_outcome : ClaimsOutcome rt header payload signature raw.
Proof.
  destruct (expired rt payload now) as [[|]|e1] eqn:H1.
  - eapply StoppedAtExpiry; [left; split; [exact H1 | reflexivity]
                            | now apply stage_expired].
  - destruct (audienceMismatch payload) as [[|]|e2] eqn:H2.
    + eapply StoppedAtAudience; [exact H1 | left; split; [exact H2 | reflexivity]
                                | now apply stage_audience].
    + destruct (issuerMismatch payload) as [[|]|e3] eqn:H3.
      * eapply StoppedAtIssuer; [exact H1 | exact H2
                                | left; split; [exact H3 | reflexivity]
                                | now apply stage_issuer].
      * apply ClaimsPassed; [exact H1 | exact H2 | exact H3 | now apply stage_key].
      * eapply StoppedAtIssuer; [exact H1 | exact H2 | right; exact H3
                                | now apply stage_issuer_throws].
    + eapply StoppedAtAudience; [exact H1 | right; exact H2
                                | now apply stage_audience_throws].
  - eapply StoppedAtExpiry; [right; exact H1 | now apply stage_expired_throws].
Qed.

(** The key fetch is the first thing VERIFICA 4 does. *)
Lemma keyAndSignature_fetches :
  exists t, trace (keyAndSignature rt header payload signature raw) = HttpsGet GOOGLE_JWKS_URL :: t.
Proof.
  unfold keyAndSignature, fetchGooglePublicKeys.
  rewrite trace_bind, trace_bind. simpl. eauto.
Qed.

End Stages.

(** ** Key lookup and signature *)

Lemma fetchGooglePublicKeys_eq (rt : Runtime) :
  fetchGooglePublicKeys rt
  = (let* data := https_get rt GOOGLE_JWKS_URL in JSON_parse rt data,
     [HttpsGet GOOGLE_JWKS_URL]).
Proof.
  unfold fetchGooglePublicKeys.
  destruct (https_get rt GOOGLE_JWKS_URL) as [data|err]; simpl; [|reflexivity].
  destruct (JSON_parse rt data); reflexivity.
Qed.

Lemma createPublicKey_eq (rt : Runtime) (jwk : JWK) :
  createPublicKey rt jwk = (crypto_createPublicKey rt jwk, [CreatePublicKey jwk]).
Proof. unfold createPublicKey. simpl. destruct (crypto_createPublicKey rt jwk); reflexivity. Qed.

Lemma Verify_verify_eq (rt : Runtime) (v : Verify) (key : KeyObject) (sig : Buffer) :
  Verify_verify rt v key sig
  = (crypto_verify rt (algorithm v) (buffered v) key sig,
     [VerifySignature (algorithm v) (buffered v) key sig]).
Proof.
  unfold Verify_verify. simpl.
  destruct (crypto_verify rt (algorithm v) (buffered v) key sig); reflexivity.
Qed.

Lemma Array_find_pure (header array : value) :
  Array_find array (sameKid header)
  = lift (result (Array_find array (sameKid header))).
Proof.
  pose proof (Array_find_trace header array) as H.
  destruct (Array_find array (sameKid header)) as [r t]. simpl in *. now subst.
Qed.

Lemma bind_Normal {A B} (a : A) (t : list Event) (k : A -> Eff B) :
  bind (Normal a, t) k = (result (k a), (t ++ trace (k a))%list).
Proof. simpl. destruct (k a). reflexivity. Qed.

Section Signature.

Variable rt : Runtime.
Variables (header payload : value) (signature : string) (raw : list string).

Let outcome : Eff value := keyAndSignature rt header payload signature raw.

Lemma signature_outcome : SignatureOutcome rt header payload signature raw.
Proof.
  assert (H : outcome = keyAndSignature rt header payload signature raw) by reflexivity.
  unfold keyAndSignature in H.
  rewrite fetchGooglePublicKeys_eq in H.
  destruct (let* data := https_get rt GOOGLE_JWKS_URL in JSON_parse rt data)
    as [keys|err].
  2:{ eapply StoppedBeforeVerify; [left; reflexivity | exact H]. }
  rewrite bind_Normal in H.
  destruct (get keys "keys") as [keys_keys|err].
  2:{ eapply StoppedBeforeVerify; [left; reflexivity | exact H]. }
  rewrite bind_lift_Normal, Array_find_pure in H.
  destruct (result (Array_find keys_keys (sameKid header))) as [key|err].
  2:{ eapply StoppedBeforeVerify; [left; reflexivity | exact H]. }
  rewrite bind_lift_Normal in H. destruct (ToBoolean key).
  2:{ eapply StoppedBeforeVerify; [left; reflexivity | exact H]. }
  simpl negb in H. rewrite throwIf_false in H.
  destruct (base64UrlDecode signature) as [sig|err] eqn:Hsig.
  2:{ eapply StoppedBeforeVerify; [left; reflexivity | exact H]. }
  rewrite bind_lift_Normal in H. destruct (get key "kty") as [key_kty|err].
  2:{ eapply StoppedBeforeVerify; [left; reflexivity | exact H]. }
  rewrite bind_lift_Normal in H. destruct (get key "n") as [key_n|err].
  2:{ eapply StoppedBeforeVerify; [left; reflexivity | exact H]. }
  rewrite bind_lift_Normal in H. destruct (get key "e") as [key_e|err].
  2:{ eapply StoppedBeforeVerify; [left; reflexivity | exact H]. }
  rewrite bind_lift_Normal, createPublicKey_eq in H.
  set (jwk := {| kty := key_kty; n := key_n; e := key_e |}) in H.
  destruct (crypto_createPublicKey rt jwk) as [key'|err].
  2:{ eapply StoppedBeforeVerify; [right; exists jwk; reflexivity | exact H]. }
  rewrite bind_Normal, Verify_verify_eq in H.
  change (algorithm (Verify_update (createVerify "RSA-SHA256") (signingInput raw)))
    with "RSA-SHA256" in H.
  change (buffered (Verify_update (createVerify "RSA-SHA256") (signingInput raw)))
    with (signingInput raw) in H.
  destruct (crypto_verify rt "RSA-SHA256" (signingInput raw) key' sig)
    as [[|]|err] eqn:Hverify.
  - eapply (AskedToVerify rt header payload signature raw jwk key' sig (Normal payload));
      [exact Hsig | now rewrite Hverify | exact H].
  - eapply (AskedToVerify rt header payload signature raw jwk key' sig (Throw (Error "Invalid token signature")));
      [exact Hsig | now rewrite Hverify | exact H].
  - eapply (AskedToVerify rt header payload signature raw jwk key' sig (Throw err));
      [exact Hsig | now rewrite Hverify | exact H].
Qed.

End Signature.

(** ** From the token to the checks *)

Lemma verifyJWT_parsed (rt : Runtime) (token : string) (p : ParsedJWT) :
  parseJWT rt token = Normal p ->
  verifyJWT rt token
  = verifyParsed rt (header p) (payload p) (signature p) (raw p).
Proof. intros H. unfold verifyJWT. rewrite H. now rewrite bind_lift_Normal. Qed.

Lemma verifyJWT_unparsed (rt : Runtime) (token : string) (err : error) :
  parseJWT rt token = Throw err -> verifyJWT rt token = (Throw err, []).
Proof. intros H. unfold verifyJWT. rewrite H. reflexivity. Qed.

Lemma parseJWT_segments (rt : Runtime) (token : string) (p : ParsedJWT) :
  parseJWT rt token = Normal p ->
  raw p = Str.split "." token /\
  List.length (raw p) = 3%nat /\
  signature p = nth 2 (raw p) "".
Proof.
  unfold parseJWT. cbv zeta.
  destruct (List.length (Str.split "." token) =? 3)%nat eqn:E; simpl; [|intros X; discriminate X].
  destruct (JSON_parse rt _); simpl; [|intros X; discriminate X].
  destruct (JSON_parse rt _); simpl; [|intros X; discriminate X].
  intros H. inversion H; subst; simpl. apply Nat.eqb_eq in E. auto.
Qed.

Lemma three_segments (token s0 s1 s2 : string) :
  Str.split "." token = [s0; s1; s2] ->
  token = s0 ++ "." ++ s1 ++ "." ++ s2 /\
  Str.contains "." s0 = false /\ Str.contains "." s1 = false /\
  Str.contains "." s2 = false.
Proof.
  intros H. pose proof (join_split "." token) as J.
  pose proof (split_segments "." token) as F. rewrite H in J, F.
  pose proof (Forall_inv F) as F0.
  pose proof (Forall_inv (Forall_inv_tail F)) as F1.
  pose proof (Forall_inv (Forall_inv_tail (Forall_inv_tail F))) as F2.
  simpl in J, F0, F1, F2. auto.
Qed.

(** ** The conditions of the three checks *)

Lemma get_Throw (v : value) (name name' : string) (err : error) :
  get v name = Throw err -> get v name' = Throw err.
Proof.
  destruct v; simpl; try discriminate; try (intros H; exact H).
  destruct (lookup name properties); discriminate.
Qed.



Lemma expired_reads (rt : Runtime) (payload : value) (now : Z) (b : bool) :
  expired rt payload now = Normal b -> exists v, get payload "exp" = Normal v.
Proof.
  unfold expired. destruct (get payload "exp") as [v|err]; [eauto | discriminate].
Qed.

Lemma audienceMismatch_false (payload : value) :
  audienceMismatch payload = Normal false <->
  get payload "aud" = Normal (Str CLIENT_ID).
Proof.
  unfold audienceMismatch. destruct (get payload "aud") as [aud|err]; simpl.
  - split; intros H.
    + inversion H as [E]. apply negb_false_iff in E. apply strict_eq_Str in E.
      now subst.
    + inversion H; subst. reflexivity.
  - split; discriminate.
Qed.

Lemma audienceMismatch_Throw (payload : value) (err : error) :
  audienceMismatch payload = Throw err -> get payload "aud" = Throw err.
Proof.
  unfold audienceMismatch. destruct (get payload "aud"); simpl; intros H;
    [discriminate H | now inversion H].
Qed.

Lemma issuerMismatch_spec (payload iss : value) :
  get payload "iss" = Normal iss ->
  (isExpectedIssuer iss /\ issuerMismatch payload = Normal false) \/
  (~ isExpectedIssuer iss /\ issuerMismatch payload = Normal true).
Proof.
  intros H. unfold issuerMismatch. rewrite H. simpl.
  destruct (strict_eq iss (Str "https://accounts.google.com")) eqn:E1; simpl.
  - left. split; [|reflexivity]. apply strict_eq_Str in E1.
    exists "https://accounts.google.com". split; [assumption | now left].
  - destruct (strict_eq iss (Str "accounts.google.com")) eqn:E2; simpl.
    + left. split; [|reflexivity]. apply strict_eq_Str in E2.
      exists "accounts.google.com". split; [assumption | right; now left].
    + right. split; [|reflexivity]. intros (s & -> & [<-|[<-|[]]]).
      * simpl in E1. discriminate.
      * simpl in E2. discriminate.
Qed.

(** A verification that got past the audience check had the expected
    audience; one whose audience is anything else stops there, or earlier. *)
Lemma audience_needed (rt : Runtime) (header payload : value)
    (signature : string) (raw : list string) :
  let verdict := verifyParsed rt header payload signature raw in
  trace verdict <> [] \/ isNormal (result verdict) = true ->
  get payload "aud" = Normal (Str CLIENT_ID).
Proof.
  intros verdict H.
  destruct (claims_outcome rt header payload signature raw);
    try (unfold verdict in H; rewrite Hv in H; simpl in H;
         destruct H as [H|H]; [now contradiction H | discriminate H]).
  now apply audienceMismatch_false.
Qed.

Lemma audience_gate (rt : Runtime) (header payload : value)
    (signature : string) (raw : list string) :
  let verdict := verifyParsed rt header payload signature raw in
  get payload "aud" <> Normal (Str CLIENT_ID) ->
  trace verdict = [] /\
  isNormal (result verdict) = false /\
  (expired rt payload (currentSeconds rt) = Normal false ->
   verdict = (Throw (Error "Token audience mismatch"), [])).
Proof.
  intros verdict Hne. unfold verdict.
  destruct (claims_outcome rt header payload signature raw).
  - rewrite Hv. repeat split. intros E. rewrite E in Hexp.
    destruct Hexp as [[? _]|?]; discriminate.
  - rewrite Hv. repeat split. intros _. destruct Haud as [[_ ->]|Haud]; [reflexivity|].
    apply audienceMismatch_Throw in Haud.
    destruct (@expired_reads _ _ _ _ Hexp) as (v & Hv').
    rewrite (@get_Throw _ _ "exp" _ Haud) in Hv'. discriminate.
  - apply audienceMismatch_false in Haud. contradiction.
  - apply audienceMismatch_false in Haud. contradiction.
Qed.

(** What the signature check is asked and what a success means. *)
Lemma signature_facts (rt : Runtime) (header payload : value)
    (signature : string) (raw : list string) :
  let verdict := verifyParsed rt header payload signature raw in
  (forall alg data key sig,
      In (VerifySignature alg data key sig) (trace verdict) ->
      alg = "RSA-SHA256" /\ data = signingInput raw /\
      base64UrlDecode signature = Normal sig) /\
  (forall v, result verdict = Normal v ->
      v = payload /\
      exists key sig,
        base64UrlDecode signature = Normal sig /\
        crypto_verify rt "RSA-SHA256" (signingInput raw) key sig = Normal true /\
        In (VerifySignature "RSA-SHA256" (signingInput raw) key sig) (trace verdict)).
Proof.
  intros verdict. unfold verdict.
  destruct (claims_outcome rt header payload signature raw);
    try (rewrite Hv; split; [intros ? ? ? ? [] | discriminate]).
  rewrite Hv. clear Hv.
  destruct (signature_outcome rt header payload signature raw) as [err t Ht Hv|jwk key sig r Hsig Hr Hv];
    rewrite Hv; simpl.
  - split; [|discriminate].
    intros alg data key sig Hin.
    destruct Ht as [->|(jwk & ->)]; simpl in Hin;
      repeat (destruct Hin as [Hin|Hin]; [discriminate Hin|]); contradiction.
  - split.
    + intros alg data key' sig' Hin.
      repeat (destruct Hin as [Hin|Hin]; [try discriminate Hin|]); [|contradiction].
      inversion Hin; subst. auto.
    + intros v ->.
      destruct (crypto_verify rt "RSA-SHA256" (signingInput raw) key sig)
        as [[|]|err] eqn:Hverify; try discriminate Hr.
      inversion Hr; subst. split; [reflexivity|].
      exists key, sig. repeat split; auto.
Qed.

Lemma verifyParsed_header (rt : Runtime) (header header' payload : value)
    (signature : string) (raw : list string) :
  get header' "kid" = get header "kid" ->
  verifyParsed rt header' payload signature raw
  = verifyParsed rt header payload signature raw.
Proof.
  intros H. unfold verifyParsed. cbv zeta.
  repeat (apply bind_ext; intros ?; cbv beta).
  match goal with
  | |- bind (Array_find ?a _) _ = _ =>
      replace (Array_find a (sameKid header')) with (Array_find a (sameKid header))
  end; [reflexivity|].
  match goal with |- Array_find ?a _ = _ => destruct a; try reflexivity end.
  apply find_ext. intros k. unfold sameKid. now rewrite H.
Qed.

(** * The claims *)

(** C5.  A token that does not split on ["."] into exactly three segments is
    rejected with "Invalid JWT format" (the spec's MalformedToken), and the
    trace is empty: nothing was fetched from the network. *)
Theorem malformed_token_rejected (rt : Runtime) (token : string) :
  List.length (Str.split "." token) <> 3%nat ->
  verifyJWT rt token = (Throw (Error "Invalid JWT format"), []).
Proof.
  intros H. apply Nat.eqb_neq in H.
  unfold verifyJWT, parseJWT. cbv zeta. rewrite H. reflexivity.
Qed.

Lemma malformed_token_rejected_witness :
  verifyJWT Fixture.runtime (Fixture.header_RS256 ++ "." ++ Fixture.claims)
  = (Throw (Error "Invalid JWT format"), []).
Proof.
  apply malformed_token_rejected. vm_compute. discriminate.
Defined.



(** C3.  The audience check compares [aud] with [CLIENT_ID] by strict
    equality.  A verification that reaches the key fetch, or succeeds, had
    exactly that audience; with any other [aud] (a prefix of it, a string
    that contains it, no string at all) a token that passes the expiry check
    is rejected with "Token audience mismatch" (ClaimAudienceMismatch), with
    an empty trace: issuer, key set and signature are not even looked at. *)
Theorem audience_exact (rt : Runtime) (token : string) (p : ParsedJWT) :
  parseJWT rt token = Normal p ->
  (trace (verifyJWT rt token) <> [] \/ isNormal (result (verifyJWT rt token)) = true ->
   get (payload p) "aud" = Normal (Str CLIENT_ID)) /\
  (get (payload p) "aud" <> Normal (Str CLIENT_ID) ->
   expired rt (payload p) (currentSeconds rt) = Normal false ->
   verifyJWT rt token = (Throw (Error "Token audience mismatch"), [])).
Proof.
  intros HP. rewrite (verifyJWT_parsed _ _ _ HP). split.
  - apply audience_needed.
  - intros Hne Hexp.
    now apply (audience_gate rt (header p) (payload p) (signature p) (raw p) Hne).
Qed.

(** C10.  A payload with no [aud] at all never satisfies the audience check:
    the verification does not succeed and reaches nothing outside, and when
    the expiry check passes the error is "Token audience mismatch". *)
Theorem missing_audience_rejected (rt : Runtime) (token : string) (p : ParsedJWT) :
  parseJWT rt token = Normal p ->
  get (payload p) "aud" = Normal Undefined ->
  trace (verifyJWT rt token) = [] /\
  isNormal (result (verifyJWT rt token)) = false /\
  (expired rt (payload p) (currentSeconds rt) = Normal false ->
   verifyJWT rt token = (Throw (Error "Token audience mismatch"), [])).
Proof.
  intros HP Haud. rewrite (verifyJWT_parsed _ _ _ HP).
  apply audience_gate. rewrite Haud. discriminate.
Qed.

(** C4.  Once expiry and audience have passed, the issuer check passes (the
    key fetch follows) exactly when [iss] is one of the two strings of the
    allow-list, compared by strict equality; any other [iss] is rejected with
    "Invalid token issuer" (ClaimIssuerMismatch) and an empty trace. *)
Theorem issuer_allow_list (rt : Runtime) (token : string) (p : ParsedJWT)
    (iss : value) :
  parseJWT rt token = Normal p ->
  expired rt (payload p) (currentSeconds rt) = Normal false ->
  get (payload p) "aud" = Normal (Str CLIENT_ID) ->
  get (payload p) "iss" = Normal iss ->
  (isExpectedIssuer iss <->
   exists t, trace (verifyJWT rt token) = HttpsGet GOOGLE_JWKS_URL :: t) /\
  (~ isExpectedIssuer iss ->
   verifyJWT rt token = (Throw (Error "Invalid token issuer"), [])).
Proof.
  intros HP Hexp Haud Hiss. rewrite (verifyJWT_parsed _ _ _ HP).
  apply audienceMismatch_false in Haud.
  destruct (issuerMismatch_spec _ _ Hiss) as [[Hin Hm]|[Hout Hm]].
  - rewrite (stage_key _ (header p) _ (signature p) (raw p) Hexp Haud Hm).
    split; [|contradiction].
    split; [intros _; apply keyAndSignature_fetches | intros _; exact Hin].
  - rewrite (stage_issuer _ (header p) _ (signature p) (raw p) Hexp Haud Hm).
    split; [|reflexivity].
    split; [contradiction | intros (t & Ht); discriminate Ht].
Qed.

(** C6.  When the claims pass, the key set has been fetched and none of its
    records carries the [kid] of the header, the verification fails with
    "Public key not found" (KeyNotFound); the trace holds the fetch and
    nothing else: no key object was built and no signature was verified. *)
Theorem unknown_kid_rejected (rt : Runtime) (token : string) (p : ParsedJWT)
    (data : string) (keys hk : value) (ks : list value) :
  parseJWT rt token = Normal p ->
  expired rt (payload p) (currentSeconds rt) = Normal false ->
  audienceMismatch (payload p) = Normal false ->
  issuerMismatch (payload p) = Normal false ->
  https_get rt GOOGLE_JWKS_URL = Normal data ->
  JSON_parse rt data = Normal keys ->
  get keys "keys" = Normal (Arr ks) ->
  get (header p) "kid" = Normal hk ->
  Forall (fun k => exists kk, get k "kid" = Normal kk /\ strict_eq kk hk = false) ks ->
  verifyJWT rt token
  = (Throw (Error "Public key not found"), [HttpsGet GOOGLE_JWKS_URL]).
Proof.
  intros HP Hexp Haud Hiss Hget Hjson Hkeys Hkid Hnone.
  rewrite (verifyJWT_parsed _ _ _ HP).
  rewrite (stage_key _ (header p) _ (signature p) (raw p) Hexp Haud Hiss).
  unfold keyAndSignature. rewrite fetchGooglePublicKeys_eq, Hget. simpl andThen.
  rewrite Hjson, bind_Normal, Hkeys. step. simpl Array_find.
  rewrite (find_no_match _ _ _ Hkid Hnone). reflexivity.
Qed.

(** C7.  For a token of three segments, the signing input is the first two
    segments joined by a dot, as they stand in the token (the token is that
    input, a dot and the third segment).  Whenever the verifier has OpenSSL
    verify a signature, it is over exactly this string, with the decoded
    third segment as the signature; and the token is accepted only if that
    verification answered yes. *)
Theorem signing_input_verbatim (rt : Runtime) (token s0 s1 s2 : string) :
  Str.split "." token = [s0; s1; s2] ->
  token = (s0 ++ "." ++ s1) ++ "." ++ s2 /\
  (forall alg data key sig,
      In (VerifySignature alg data key sig) (trace (verifyJWT rt token)) ->
      data = s0 ++ "." ++ s1 /\ base64UrlDecode s2 = Normal sig) /\
  (forall v,
      result (verifyJWT rt token) = Normal v ->
      exists key sig,
        base64UrlDecode s2 = Normal sig /\
        In (VerifySignature "RSA-SHA256" (s0 ++ "." ++ s1) key sig)
           (trace (verifyJWT rt token)) /\
        crypto_verify rt "RSA-SHA256" (s0 ++ "." ++ s1) key sig = Normal true).
Proof.
  intros Hs. split.
  { destruct (three_segments _ _ _ _ Hs) as (-> & _). now rewrite !append_assoc. }
  destruct (parseJWT rt token) as [p|err] eqn:HP.
  - destruct (parseJWT_segments _ _ _ HP) as (Hraw & _ & Hsig).
    rewrite Hs in Hraw. rewrite Hraw in Hsig. simpl in Hsig.
    rewrite (verifyJWT_parsed _ _ _ HP).
    destruct (signature_facts rt (header p) (payload p) (signature p) (raw p))
      as [Hev Hok].
    rewrite Hraw, Hsig in *. change (signingInput [s0; s1; s2]) with (s0 ++ "." ++ s1) in *.
    split.
    + intros alg data key sig Hin. destruct (Hev _ _ _ _ Hin) as (_ & -> & Hd). auto.
    + intros v Hv. destruct (Hok _ Hv) as (_ & key & sig & H1 & H2 & H3).
      exists key, sig. auto.
  - rewrite (verifyJWT_unparsed _ _ _ HP). split.
    + intros ? ? ? ? [].
    + discriminate.
Qed.

(** C2, as the code has it.  The verifier never looks at the [alg] of the
    header: the verdict on a token is the one it would be with any other
    decoded header that has the same [kid], and every signature it has
    verified is verified with RSA-SHA256.  No algorithm is ever rejected. *)
Theorem algorithm_fixed (rt : Runtime) (token : string) (p : ParsedJWT) :
  parseJWT rt token = Normal p ->
  (forall header' : value,
      get header' "kid" = get (header p) "kid" ->
      verifyParsed rt header' (payload p) (signature p) (raw p)
      = verifyJWT rt token) /\
  (forall alg data key sig,
      In (VerifySignature alg data key sig) (trace (verifyJWT rt token)) ->
      alg = "RSA-SHA256").
Proof.
  intros HP. rewrite (verifyJWT_parsed _ _ _ HP). split.
  - intros header' H. now apply verifyParsed_header.
  - intros alg data key sig Hin.
    now destruct (proj1 (signature_facts rt (header p) (payload p) (signature p) (raw p))
                    _ _ _ _ Hin).
Qed.

(** C2, as the spec has it, fails: a token whose header declares the
    algorithm ["none"] (which no allow-list of signing algorithms holds) is
    verified with RSA-SHA256 and accepted. *)
Lemma alg_none_accepted :
  let token := Fixture.unsigned in
  exists p : ParsedJWT,
    parseJWT Fixture.runtime token = Normal p /\
    get (header p) "alg" = Normal (Str "none") /\
    ~ In "none" ["RS256"] /\
    result (verifyJWT Fixture.runtime token) = Normal (payload p) /\
    exists data key sig,
      trace (verifyJWT Fixture.runtime token)
      = [HttpsGet GOOGLE_JWKS_URL;
         CreatePublicKey {| kty := Str "RSA"; n := Str "sXch"; e := Str "AQAB" |};
         VerifySignature "RSA-SHA256" data key sig].
Proof.
  eexists. split; [vm_compute; reflexivity|]. split; [reflexivity|].
  split; [intros [H|[]]; discriminate H|]. split; [reflexivity|].
  do 3 eexists. vm_compute. reflexivity.
Qed.


(** ** The claims on the tokens of the examples *)

Example good_token_parsed :
  header (Fixture.parsed Fixture.good)
  = Obj [("alg", Str "RS256"); ("kid", Str "k1")] /\
  payload (Fixture.parsed Fixture.good)
  = Obj [("iss", Str "accounts.google.com"); ("aud", Str CLIENT_ID);
         ("sub", Str "7"); ("exp", Num 2000000000)] /\
  currentSeconds Fixture.runtime = 1700000000%Z.
Proof. vm_compute. repeat split. Qed.

Example other_payloads_parsed :
  payload (Fixture.parsed Fixture.noExp)
  = Obj [("iss", Str "accounts.google.com"); ("aud", Str CLIENT_ID);
         ("sub", Str "7")] /\
  payload (Fixture.parsed Fixture.old)
  = Obj [("iss", Str "accounts.google.com"); ("aud", Str CLIENT_ID);
         ("sub", Str "7"); ("exp", Num 1000000000)] /\
  payload (Fixture.parsed Fixture.prefixAud)
  = Obj [("iss", Str "accounts.google.com"); ("aud", Str "48315565897");
         ("sub", Str "7"); ("exp", Num 2000000000)] /\
  payload (Fixture.parsed Fixture.noAud)
  = Obj [("iss", Str "accounts.google.com");
         ("sub", Str "7"); ("exp", Num 2000000000)] /\
  payload (Fixture.parsed Fixture.otherIss)
  = Obj [("iss", Str "accounts.google.com.evil.example"); ("aud", Str CLIENT_ID);
         ("sub", Str "7"); ("exp", Num 2000000000)] /\
  header (Fixture.parsed Fixture.unsigned)
  = Obj [("alg", Str "none"); ("kid", Str "k1")] /\
  header (Fixture.parsed Fixture.otherKey)
  = Obj [("alg", Str "RS256"); ("kid", Str "k9")].
Proof. vm_compute. repeat split. Qed.

Example good_token_accepted :
  verifyJWT Fixture.runtime Fixture.good
  = (Normal (payload (Fixture.parsed Fixture.good)),
     [HttpsGet GOOGLE_JWKS_URL;
      CreatePublicKey {| kty := Str "RSA"; n := Str "sXch"; e := Str "AQAB" |};
      VerifySignature "RSA-SHA256" (Fixture.header_RS256 ++ "." ++ Fixture.claims)
        (KeyHandle 1) [1; 2; 3]%Z]).
Proof. vm_compute. reflexivity. Qed.

Example forged_token_rejected :
  result (verifyJWT Fixture.runtime
            (Fixture.token Fixture.header_RS256 Fixture.claims Fixture.forged))
  = Throw (Error "Invalid token signature").
Proof. vm_compute. reflexivity. Qed.


Lemma audience_exact_witness :
  verifyJWT Fixture.runtime Fixture.prefixAud
  = (Throw (Error "Token audience mismatch"), []).
Proof.
  apply (proj2 (audience_exact Fixture.runtime Fixture.prefixAud
                  (Fixture.parsed Fixture.prefixAud)
                  ltac:(vm_compute; reflexivity)));
    [vm_compute; discriminate | vm_compute; reflexivity].
Defined.

Lemma missing_audience_rejected_witness :
  verifyJWT Fixture.runtime Fixture.noAud
  = (Throw (Error "Token audience mismatch"), []).
Proof.
  apply (missing_audience_rejected Fixture.runtime Fixture.noAud
           (Fixture.parsed Fixture.noAud)
           ltac:(vm_compute; reflexivity) ltac:(vm_compute; reflexivity)).
  vm_compute; reflexivity.
Defined.

Lemma issuer_allow_list_witness :
  verifyJWT Fixture.runtime Fixture.otherIss
  = (Throw (Error "Invalid token issuer"), []) /\
  exists t,
    trace (verifyJWT Fixture.runtime Fixture.good) = HttpsGet GOOGLE_JWKS_URL :: t.
Proof.
  split.
  - apply (proj2 (issuer_allow_list Fixture.runtime Fixture.otherIss
                    (Fixture.parsed Fixture.otherIss)
                    (Str "accounts.google.com.evil.example")
                    ltac:(vm_compute; reflexivity) ltac:(vm_compute; reflexivity)
                    ltac:(vm_compute; reflexivity) ltac:(vm_compute; reflexivity))).
    intros (s & E & [H|[H|[]]]); rewrite <- H in E; discriminate E.
  - apply (proj1 (issuer_allow_list Fixture.runtime Fixture.good
                    (Fixture.parsed Fixture.good)
                    (Str "accounts.google.com")
                    ltac:(vm_compute; reflexivity) ltac:(vm_compute; reflexivity)
                    ltac:(vm_compute; reflexivity) ltac:(vm_compute; reflexivity))).
    exists "accounts.google.com". split; [reflexivity | right; now left].
Defined.

Lemma unknown_kid_rejected_witness :
  verifyJWT Fixture.runtime Fixture.otherKey
  = (Throw (Error "Public key not found"), [HttpsGet GOOGLE_JWKS_URL]).
Proof.
  apply (unknown_kid_rejected Fixture.runtime Fixture.otherKey
           (Fixture.parsed Fixture.otherKey) Fixture.jwks
           (Obj [("keys", Arr [Obj [("kid", Str "k0"); ("kty", Str "RSA");
                                    ("n", Str "AQAB"); ("e", Str "AQAB")];
                               Obj [("kid", Str "k1"); ("kty", Str "RSA");
                                    ("n", Str "sXch"); ("e", Str "AQAB")]])])
           (Str "k9")
           [Obj [("kid", Str "k0"); ("kty", Str "RSA");
                 ("n", Str "AQAB"); ("e", Str "AQAB")];
            Obj [("kid", Str "k1"); ("kty", Str "RSA");
                 ("n", Str "sXch"); ("e", Str "AQAB")]]);
    try (vm_compute; reflexivity).
  repeat constructor; eexists; split; vm_compute; reflexivity.
Defined.

Lemma signing_input_verbatim_witness :
  exists key sig,
    base64UrlDecode Fixture.signed = Normal sig /\
    In (VerifySignature "RSA-SHA256" (Fixture.header_RS256 ++ "." ++ Fixture.claims)
          key sig)
       (trace (verifyJWT Fixture.runtime Fixture.good)) /\
    crypto_verify Fixture.runtime "RSA-SHA256"
      (Fixture.header_RS256 ++ "." ++ Fixture.claims) key sig = Normal true.
Proof.
  apply (proj2 (proj2 (signing_input_verbatim Fixture.runtime Fixture.good
                         Fixture.header_RS256 Fixture.claims Fixture.signed
                         ltac:(vm_compute; reflexivity)))
           (payload (Fixture.parsed Fixture.good))).
  vm_compute; reflexivity.
Defined.

Lemma algorithm_fixed_witness :
  verifyParsed Fixture.runtime
    (header (Fixture.parsed Fixture.good))
    (payload (Fixture.parsed Fixture.unsigned))
    (signature (Fixture.parsed Fixture.unsigned))
    (raw (Fixture.parsed Fixture.unsigned))
  = verifyJWT Fixture.runtime Fixture.unsigned.
Proof.
  apply (proj1 (algorithm_fixed Fixture.runtime Fixture.unsigned
                  (Fixture.parsed Fixture.unsigned)
                  ltac:(vm_compute; reflexivity))).
  vm_compute; reflexivity.
Defined.

(** * More of the server *)

(** ** The decoder on well-formed input *)

Lemma octets_length (l : list Z) :
  List.length (Base64.octets l) = (List.length l * 3 / 4)%nat.
Proof.
  remember (List.length l) as len eqn:Hlen. revert l Hlen.
  induction len as [len IH] using lt_wf_ind. intros l Hlen.
  destruct l as [|a [|b [|c [|d rest]]]]; cbn [Base64.octets List.length] in *;
    try (subst len; reflexivity).
  rewrite (IH (List.length rest)) by (subst len; simpl; lia || reflexivity).
  subst len.
  replace (S (S (S (S (List.length rest)))) * 3)%nat
    with (List.length rest * 3 + 3 * 4)%nat by lia.
  rewrite Nat.div_add by lia. lia.
Qed.

Lemma sextets_all (s : string) :
  allInAlphabet s = true ->
  List.length (Base64.sextets s) = String.length s.
Proof.
  induction s as [|c s IH]; simpl; [reflexivity|].
  destruct (Base64.unbase64 c) eqn:E; [|discriminate].
  destruct (Ascii.eqb_spec c "=") as [->|_]; [discriminate E|].
  intros H. simpl. now rewrite IH.
Qed.

Lemma unbase64_standard (c : ascii) :
  Base64.unbase64 (if Ascii.eqb (if Ascii.eqb c "-" then "+"%char else c) "_"
                   then "/"%char
                   else if Ascii.eqb c "-" then "+"%char else c)
  = Base64.unbase64 c.
Proof.
  destruct (Ascii.eqb_spec c "-") as [->|H1]; [reflexivity|].
  destruct (Ascii.eqb_spec c "_") as [->|H2]; reflexivity.
Qed.

Lemma sextets_standard (s : string) :
  Base64.sextets (toStandardAlphabet s) = Base64.sextets s.
Proof.
  unfold toStandardAlphabet. induction s as [|c s IH]; simpl; [reflexivity|].
  rewrite unbase64_standard, IH.
  destruct (Ascii.eqb_spec c "-") as [->|H1]; [reflexivity|].
  destruct (Ascii.eqb_spec c "_") as [->|H2]; reflexivity.
Qed.

Lemma toStandardAlphabet_equals (k : nat) : toStandardAlphabet (equals k) = equals k.
Proof. induction k as [|k IH]; simpl; [reflexivity|]. unfold toStandardAlphabet in *. simpl. now rewrite IH. Qed.

(** X1.  Padding is optional and both alphabets are read: a segment decodes
    to the same bytes with or without trailing ["="] characters, and with
    ["-"] and ["_"] or with ["+"] and ["/"] in their place. *)
Theorem base64UrlDecode_padding_alphabet (s : string) (k : nat) :
  base64UrlDecode (s ++ equals k) = base64UrlDecode s /\
  base64UrlDecode (toStandardAlphabet s) = base64UrlDecode s.
Proof.
  rewrite !base64UrlDecode_eq. split.
  - now rewrite toStandardAlphabet_append, toStandardAlphabet_equals, sextets_equals.
  - now rewrite !sextets_standard.
Qed.

(** X2.  On a string made of characters of the alphabet only, the decoder
    returns three bytes for every four characters, rounded down: no
    character is lost and none is invented. *)
Theorem base64UrlDecode_length (s : string) :
  allInAlphabet s = true ->
  exists bytes : Buffer,
    base64UrlDecode s = Normal bytes /\
    List.length bytes = (String.length s * 3 / 4)%nat.
Proof.
  intros H. rewrite base64UrlDecode_eq. eexists. split; [reflexivity|].
  now rewrite octets_length, sextets_standard, sextets_all.
Qed.

Lemma base64UrlDecode_length_witness :
  exists bytes : Buffer,
    base64UrlDecode "eyJhbGciOiJSUzI1NiIsImtpZCI6ImsxIn0" = Normal bytes /\
    List.length bytes = 26%nat.
Proof.
  apply (base64UrlDecode_length "eyJhbGciOiJSUzI1NiIsImtpZCI6ImsxIn0"). reflexivity.
Defined.

(** ** Key selection *)

Lemma find_first_match (header hk k : value) (before after : list value) :
  get header "kid" = Normal hk ->
  Forall (hasOtherKid hk) before ->
  hasKidOf header k ->
  find (sameKid header) (before ++ k :: after) = (Normal k, []).
Proof.
  intros Hh Hb (kk & hk' & Hk & Hh' & Heq).
  rewrite Hh in Hh'. inversion Hh'; subst hk'. clear Hh'.
  induction Hb as [|b before (bk & Hbk & Hne) _ IH]; simpl.
  - unfold sameKid. rewrite Hk, bind_lift_Normal, Hh, bind_lift_Normal.
    unfold ret at 1.
    change (bind (Normal (strict_eq kk hk), []) ?f)
      with (bind (lift (Normal (strict_eq kk hk))) f).
    now rewrite bind_lift_Normal, Heq.
  - unfold sameKid at 1. rewrite Hbk, bind_lift_Normal, Hh, bind_lift_Normal.
    unfold ret at 1.
    change (bind (Normal (strict_eq bk hk), []) ?f)
      with (bind (lift (Normal (strict_eq bk hk))) f).
    now rewrite bind_lift_Normal, Hne.
Qed.

Lemma sameKid_true (header k : value) :
  result (sameKid header k) = Normal true -> hasKidOf header k.
Proof.
  unfold sameKid, hasKidOf.
  destruct (get k "kid") as [kk|]; [|discriminate].
  rewrite bind_lift_Normal.
  destruct (get header "kid") as [hk|]; [|discriminate].
  rewrite bind_lift_Normal. simpl. intros H. inversion H. eauto.
Qed.

Lemma find_result (header k : value) (ks : list value) :
  result (find (sameKid header) ks) = Normal k ->
  ToBoolean k = true ->
  In k ks /\ hasKidOf header k.
Proof.
  intros H Hk. induction ks as [|x ks IH]; simpl in H.
  - inversion H; subst. discriminate Hk.
  - destruct (sameKid header x) as [[[|]|err] t] eqn:E; simpl in H.
    + inversion H; subst x. split; [now left|].
      apply sameKid_true. now rewrite E.
    + destruct (find (sameKid header) ks) as [r t'] eqn:F. simpl in *.
      destruct (IH H) as [Hin Hkid]. split; [now right | exact Hkid].
    + discriminate H.
Qed.

Lemma get_truthy (v : value) (name : string) :
  ToBoolean v = true -> get v name = Normal (field v name).
Proof.
  unfold field. destruct v; simpl; try discriminate; try reflexivity.
  intros _. destruct (lookup name properties); reflexivity.
Qed.

Lemma get_Normal (v x : value) (name name' : string) :
  get v name = Normal x -> get v name' = Normal (field v name').
Proof.
  unfold field. destruct v; simpl; try discriminate; try reflexivity.
  intros _. destruct (lookup name' properties); reflexivity.
Qed.

(** What an accepted token has been through in VERIFICA 4. *)
Lemma keyAndSignature_accepts (rt : Runtime) (header payload v : value)
    (signature : string) (raw : list string) :
  result (keyAndSignature rt header payload signature raw) = Normal v ->
  exists keys ks k key sig,
    result (fetchGooglePublicKeys rt) = Normal keys /\
    get keys "keys" = Normal (Arr ks) /\
    In k ks /\ hasKidOf header k /\
    crypto_createPublicKey rt (jwkOf k) = Normal key /\
    base64UrlDecode signature = Normal sig /\
    crypto_verify rt "RSA-SHA256" (signingInput raw) key sig = Normal true /\
    keyAndSignature rt header payload signature raw
    = (Normal payload,
       [HttpsGet GOOGLE_JWKS_URL; CreatePublicKey (jwkOf k);
        VerifySignature "RSA-SHA256" (signingInput raw) key sig]).
Proof.
  unfold keyAndSignature.
  pose proof (fetchGooglePublicKeys_eq rt) as Ht0.
  destruct (fetchGooglePublicKeys rt) as [[keys|err] t0].
  2:{ intros H; discriminate H. }
  assert (Htrace : t0 = [HttpsGet GOOGLE_JWKS_URL]) by (now inversion Ht0).
  subst t0. clear Ht0.
  rewrite bind_Normal.
  destruct (get keys "keys") as [keys_keys|err] eqn:Hget.
  2:{ intros H; discriminate H. }
  rewrite bind_lift_Normal, Array_find_pure.
  destruct (result (Array_find keys_keys (sameKid header))) as [k|err] eqn:Hfind.
  2:{ intros H; discriminate H. }
  rewrite bind_lift_Normal.
  destruct (ToBoolean k) eqn:Hk.
  2:{ intros H; discriminate H. }
  simpl negb. rewrite throwIf_false.
  destruct (base64UrlDecode signature) as [sig|err] eqn:Hsig.
  2:{ intros H; discriminate H. }
  rewrite bind_lift_Normal.
  rewrite (get_truthy k "kty" Hk), bind_lift_Normal.
  rewrite (get_truthy k "n" Hk), bind_lift_Normal.
  rewrite (get_truthy k "e" Hk), bind_lift_Normal.
  fold (jwkOf k). rewrite createPublicKey_eq.
  destruct (crypto_createPublicKey rt (jwkOf k)) as [key|err] eqn:Hkey.
  2:{ intros H; discriminate H. }
  rewrite bind_Normal, Verify_verify_eq.
  change (algorithm (Verify_update (createVerify "RSA-SHA256") (signingInput raw)))
    with "RSA-SHA256".
  change (buffered (Verify_update (createVerify "RSA-SHA256") (signingInput raw)))
    with (signingInput raw).
  destruct (crypto_verify rt "RSA-SHA256" (signingInput raw) key sig)
    as [[|]|err] eqn:Hverify; try (intros H; discriminate H).
  intros H.
  destruct keys_keys as [| | | | |ks|]; try discriminate Hfind.
  simpl in Hfind. destruct (find_result header k ks Hfind Hk) as [Hin Hkid].
  exists keys, ks, k, key, sig.
  repeat split; try assumption; try reflexivity.
Qed.

(** ** The verdict of [verifyJWT] *)

Lemma expired_later (rt : Runtime) (payload : value) (x now : Z) :
  get payload "exp" = Normal (Num x) -> (now <= x)%Z ->
  expired rt payload now = Normal false.
Proof.
  intros H Hle. unfold expired. rewrite H. simpl.
  destruct (Z.eqb_spec x 0); simpl; [reflexivity|].
  unfold lessThan. simpl. f_equal. apply Z.ltb_ge. exact Hle.
Qed.

Lemma issuerMismatch_expected (payload iss : value) :
  get payload "iss" = Normal iss -> isExpectedIssuer iss ->
  issuerMismatch payload = Normal false.
Proof.
  intros H Hin. destruct (issuerMismatch_spec _ _ H) as [[_ E]|[Hout _]];
    [exact E | contradiction].
Qed.

Lemma issuerMismatch_passed (payload : value) :
  issuerMismatch payload = Normal false ->
  exists iss, get payload "iss" = Normal iss /\ isExpectedIssuer iss.
Proof.
  intros H. destruct (get payload "iss") as [iss|err] eqn:E.
  - exists iss. split; [reflexivity|].
    destruct (issuerMismatch_spec _ _ E) as [[Hin _]|[_ E']]; [exact Hin|].
    rewrite E' in H. discriminate H.
  - unfold issuerMismatch in H. rewrite E in H. discriminate H.
Qed.

Lemma verifyJWT_accepts (rt : Runtime) (token : string) (v : value) :
  result (verifyJWT rt token) = Normal v ->
  exists p,
    parseJWT rt token = Normal p /\
    expired rt (payload p) (currentSeconds rt) = Normal false /\
    audienceMismatch (payload p) = Normal false /\
    issuerMismatch (payload p) = Normal false /\
    verifyJWT rt token
    = keyAndSignature rt (header p) (payload p) (signature p) (raw p).
Proof.
  intros H. destruct (parseJWT rt token) as [p|err] eqn:HP.
  - exists p. rewrite (verifyJWT_parsed _ _ _ HP) in *.
    destruct (claims_outcome rt (header p) (payload p) (signature p) (raw p));
      try (rewrite Hv in H; discriminate H).
    auto.
  - rewrite (verifyJWT_unparsed _ _ _ HP) in H. discriminate H.
Qed.

(** X3.  What an accepted token guarantees.  When [verifyJWT] returns a
    value, it is the decoded payload of the token, unchanged; its [exp] did
    not trip the expiry check, its [aud] is [CLIENT_ID], its [iss] is one of
    the two expected issuers; and OpenSSL said yes to RSA-SHA256 over the
    signing input, for the decoded third segment and a key built from a
    record of the fetched key set that carries the [kid] of the header. *)
Theorem accepted_token_is_verified (rt : Runtime) (token : string) (v : value) :
  result (verifyJWT rt token) = Normal v ->
  exists (p : ParsedJWT) (keys k : value) (ks : list value)
         (key : KeyObject) (sig : Buffer),
    parseJWT rt token = Normal p /\ v = payload p /\
    expired rt v (currentSeconds rt) = Normal false /\
    get v "aud" = Normal (Str CLIENT_ID) /\
    (exists iss, get v "iss" = Normal iss /\ isExpectedIssuer iss) /\
    result (fetchGooglePublicKeys rt) = Normal keys /\
    get keys "keys" = Normal (Arr ks) /\ In k ks /\ hasKidOf (header p) k /\
    crypto_createPublicKey rt (jwkOf k) = Normal key /\
    base64UrlDecode (signature p) = Normal sig /\
    crypto_verify rt "RSA-SHA256" (signingInput (raw p)) key sig = Normal true.
Proof.
  intros H. destruct (verifyJWT_accepts _ _ _ H) as (p & HP & Hexp & Haud & Hiss & Hv).
  rewrite Hv in H.
  destruct (keyAndSignature_accepts _ _ _ _ _ _ H)
    as (keys & ks & k & key & sig & H1 & H2 & H3 & H4 & H5 & H6 & H7 & H8).
  rewrite H8 in H. simpl in H. inversion H; subst v.
  exists p, keys, k, ks, key, sig.
  repeat split; try assumption.
  - now apply audienceMismatch_false.
  - now apply issuerMismatch_passed.
Qed.

(** X4.  The verdict follows the signature.  For a token whose payload has
    an [exp] not before the current second, the audience [CLIENT_ID] and an
    expected issuer, when the key set is fetched and its first record with
    the [kid] of the header gives a key, the token is accepted with its
    payload if OpenSSL verifies the signature, and rejected with "Invalid
    token signature" if it does not; records after the first match are not
    looked at. *)
Theorem valid_token_verdict (rt : Runtime) (token : string) (p : ParsedJWT)
    (x : Z) (iss keys hk k : value) (data : string) (before after : list value)
    (key : KeyObject) (sig : Buffer) (valid : bool) :
  parseJWT rt token = Normal p ->
  get (payload p) "exp" = Normal (Num x) -> (currentSeconds rt <= x)%Z ->
  get (payload p) "aud" = Normal (Str CLIENT_ID) ->
  get (payload p) "iss" = Normal iss -> isExpectedIssuer iss ->
  https_get rt GOOGLE_JWKS_URL = Normal data ->
  JSON_parse rt data = Normal keys ->
  get keys "keys" = Normal (Arr (before ++ k :: after)) ->
  get (header p) "kid" = Normal hk ->
  Forall (hasOtherKid hk) before ->
  hasKidOf (header p) k -> ToBoolean k = true ->
  crypto_createPublicKey rt (jwkOf k) = Normal key ->
  base64UrlDecode (signature p) = Normal sig ->
  crypto_verify rt "RSA-SHA256" (signingInput (raw p)) key sig = Normal valid ->
  verifyJWT rt token
  = (if valid then Normal (payload p) else Throw (Error "Invalid token signature"),
     [HttpsGet GOOGLE_JWKS_URL; CreatePublicKey (jwkOf k);
      VerifySignature "RSA-SHA256" (signingInput (raw p)) key sig]).
Proof.
  intros HP Hexp Hle Haud Hiss Hin Hget Hjson Hkeys Hkid Hbefore Hk Htrue
         Hkey Hsig Hverify.
  rewrite (verifyJWT_parsed _ _ _ HP).
  rewrite (stage_key _ (header p) _ (signature p) (raw p)
             (expired_later _ _ _ _ Hexp Hle)
             (proj2 (audienceMismatch_false _) Haud)
             (issuerMismatch_expected _ _ Hiss Hin)).
  unfold keyAndSignature. rewrite fetchGooglePublicKeys_eq, Hget. simpl andThen.
  rewrite Hjson, bind_Normal, Hkeys. step. simpl Array_find.
  rewrite (find_first_match _ _ _ _ _ Hkid Hbefore Hk).
  change (Normal k, @nil Event) with (lift (Normal k)).
  step. rewrite Htrue. simpl negb. step. rewrite Hsig. step.
  rewrite (get_truthy k "kty" Htrue). step.
  rewrite (get_truthy k "n" Htrue). step.
  rewrite (get_truthy k "e" Htrue). step.
  fold (jwkOf k). rewrite createPublicKey_eq, Hkey, bind_Normal, Verify_verify_eq.
  change (algorithm (Verify_update (createVerify "RSA-SHA256") (signingInput (raw p))))
    with "RSA-SHA256".
  change (buffered (Verify_update (createVerify "RSA-SHA256") (signingInput (raw p))))
    with (signingInput (raw p)).
  rewrite Hverify. destruct valid; reflexivity.
Qed.

(** X5.  When the key set cannot be had (the request fails, or the answer
    is not JSON), a token whose claims pass is rejected with the error of the
    fetch; nothing is verified. *)
Theorem key_fetch_failure (rt : Runtime) (token : string) (p : ParsedJWT)
    (err : error) :
  parseJWT rt token = Normal p ->
  expired rt (payload p) (currentSeconds rt) = Normal false ->
  audienceMismatch (payload p) = Normal false ->
  issuerMismatch (payload p) = Normal false ->
  result (fetchGooglePublicKeys rt) = Throw err ->
  verifyJWT rt token = (Throw err, [HttpsGet GOOGLE_JWKS_URL]).
Proof.
  intros HP Hexp Haud Hiss Hfetch.
  rewrite (verifyJWT_parsed _ _ _ HP).
  rewrite (stage_key _ (header p) _ (signature p) (raw p) Hexp Haud Hiss).
  unfold keyAndSignature. rewrite fetchGooglePublicKeys_eq in *. simpl in Hfetch.
  rewrite Hfetch. reflexivity.
Qed.

(** X6.  One verification reaches outside in a fixed order and at most once
    each: the key set is fetched, then one key is built, then one signature
    is verified; the trace is a prefix of these three steps. *)
Theorem verifyJWT_trace_shape (rt : Runtime) (token : string) :
  trace (verifyJWT rt token) = [] \/
  trace (verifyJWT rt token) = [HttpsGet GOOGLE_JWKS_URL] \/
  (exists jwk,
      trace (verifyJWT rt token) = [HttpsGet GOOGLE_JWKS_URL; CreatePublicKey jwk]) \/
  (exists jwk data key sig,
      trace (verifyJWT rt token)
      = [HttpsGet GOOGLE_JWKS_URL; CreatePublicKey jwk;
         VerifySignature "RSA-SHA256" data key sig]).
Proof.
  destruct (parseJWT rt token) as [p|err] eqn:HP.
  - rewrite (verifyJWT_parsed _ _ _ HP).
    destruct (claims_outcome rt (header p) (payload p) (signature p) (raw p));
      try (rewrite Hv; now left).
    rewrite Hv.
    destruct (signature_outcome rt (header p) (payload p) (signature p) (raw p))
      as [err t [->|(jwk & ->)] Hv'|jwk key sig r _ _ Hv']; rewrite Hv'; simpl.
    + right. now left.
    + right. right. left. now exists jwk.
    + right. right. right. now exists jwk, (signingInput (raw p)), key, sig.
  - rewrite (verifyJWT_unparsed _ _ _ HP). now left.
Qed.

(** X7.  A fetched document whose [keys] is not an array (or that has
    none) is not a missing key: the lookup throws a [TypeError] after the
    fetch. *)
Theorem key_set_without_array (rt : Runtime) (token : string) (p : ParsedJWT)
    (keys : value) :
  parseJWT rt token = Normal p ->
  expired rt (payload p) (currentSeconds rt) = Normal false ->
  audienceMismatch (payload p) = Normal false ->
  issuerMismatch (payload p) = Normal false ->
  result (fetchGooglePublicKeys rt) = Normal keys ->
  (forall ks, get keys "keys" <> Normal (Arr ks)) ->
  verifyJWT rt token = (Throw TypeError, [HttpsGet GOOGLE_JWKS_URL]).
Proof.
  intros HP Hexp Haud Hiss Hfetch Hno.
  rewrite (verifyJWT_parsed _ _ _ HP).
  rewrite (stage_key _ (header p) _ (signature p) (raw p) Hexp Haud Hiss).
  unfold keyAndSignature. rewrite fetchGooglePublicKeys_eq in *. simpl in Hfetch.
  rewrite Hfetch, bind_Normal.
  destruct (get keys "keys") as [keys_keys|err] eqn:Hget.
  - step. destruct keys_keys; try reflexivity. now contradiction (Hno elements).
  - destruct keys; simpl in Hget; try discriminate Hget;
      try (inversion Hget; reflexivity).
    destruct (lookup "keys" properties); discriminate Hget.
Qed.

(** X8.  A payload that is not a JSON object never gets as far as the
    network: [null] makes the first property read throw a [TypeError], and a
    number, string, boolean or array has no [aud] and is rejected with "Token
    audience mismatch". *)
Theorem non_object_payload_rejected (rt : Runtime) (token : string) (p : ParsedJWT) :
  parseJWT rt token = Normal p ->
  (forall properties, payload p <> Obj properties) ->
  verifyJWT rt token
  = (Throw (match payload p with
            | Null | Undefined => TypeError
            | _ => Error "Token audience mismatch"
            end), []).
Proof.
  intros HP Hno. rewrite (verifyJWT_parsed _ _ _ HP).
  destruct (payload p) eqn:E;
    try (apply stage_expired_throws; reflexivity);
    try (apply stage_audience; reflexivity).
  now contradiction (Hno properties).
Qed.

(** X9.  A token of three segments whose header, or else whose payload,
    does not decode to JSON is rejected with the error of [JSON.parse], the
    header's first, before anything is fetched. *)
Theorem unparsable_segment_rejected (rt : Runtime) (token s0 s1 s2 : string)
    (err : error) :
  Str.split "." token = [s0; s1; s2] ->
  JSON_parse rt (decodedText rt s0) = Throw err \/
  (isNormal (JSON_parse rt (decodedText rt s0)) = true /\
   JSON_parse rt (decodedText rt s1) = Throw err) ->
  verifyJWT rt token = (Throw err, []).
Proof.
  intros Hs H. apply verifyJWT_unparsed.
  unfold parseJWT. cbv zeta. rewrite Hs. simpl.
  unfold decodedText, base64UrlDecode in H. cbv zeta in H.
  destruct H as [H|[H0 H1]].
  - now rewrite H.
  - destruct (JSON_parse rt _) as [h|]; [|discriminate H0]. simpl. now rewrite H1.
Qed.

(** X22.  An [exp] that is an array or an object is compared all the same:
    when it cannot be turned into a primitive (its [toString] is no
    function, say), the comparison throws and the token is rejected with
    that error at the expiry check, whatever its audience, issuer and
    signature, before anything is fetched. *)
Theorem unconvertible_exp_rejected (rt : Runtime) (token : string) (p : ParsedJWT)
    (exp : value) (err : error) :
  parseJWT rt token = Normal p ->
  get (payload p) "exp" = Normal exp ->
  isObject exp = true ->
  ToPrimitive rt exp = Throw err ->
  verifyJWT rt token = (Throw err, []).
Proof.
  intros HP Hexp Hobj Hthrows. rewrite (verifyJWT_parsed _ _ _ HP).
  apply stage_expired_throws. unfold expired. rewrite Hexp. simpl andThen.
  destruct exp; try discriminate Hobj; simpl; unfold lessThan; simpl;
    now rewrite Hthrows.
Qed.

(** ** The login route *)

Lemma bind_io_Normal {E A B} (a : A) (t : list E) (k : A -> Run E B) :
  bind_io (Normal a, t) k = (fst (k a), (t ++ snd (k a))%list).
Proof. simpl. destruct (k a). reflexivity. Qed.

Lemma bind_io_lift {E A B} (a : A) (k : A -> Run E B) :
  bind_io (lift_io (Normal a)) k = k a.
Proof. unfold lift_io. rewrite bind_io_Normal. destruct (k a). reflexivity. Qed.

Lemma bind_async_lift {A B} (a : A) (k : A -> Async B) :
  bind_async (settled (lift_io (Normal a))) k = k a.
Proof. unfold settled, lift_io. simpl. destruct (k a). reflexivity. Qed.

Lemma sendJSON_eq (pf : Platform) (statusCode : Z) (data : value) :
  sendJSON pf statusCode data
  = (Normal tt, [WriteHead statusCode jsonHeaders;
                 EndResponse (Some (JSON_stringify pf data))]).
Proof. reflexivity. Qed.

Lemma tokenMissing_eq (data : value) :
  tokenMissing data = Normal (negb (ToBoolean (field data "token"))).
Proof.
  unfold tokenMissing, field.
  destruct data as [| |b|z|s|l|ps]; simpl; try reflexivity.
  - destruct b; reflexivity.
  - destruct (z =? 0)%Z; reflexivity.
  - destruct (s =? ""); reflexivity.
  - destruct (lookup "token" ps); reflexivity.
Qed.

Lemma field_truthy (data : value) (name : string) :
  ToBoolean (field data name) = true -> get data name = Normal (field data name).
Proof.
  unfold field. destruct (get data name); [reflexivity | discriminate].
Qed.

Lemma verifyJWT_returns_object (rt : Runtime) (text : string) (v : value) :
  result (verifyJWT rt text) = Normal v ->
  forall name, get v name = Normal (field v name).
Proof.
  intros H name.
  destruct (verifyJWT_accepts _ _ _ H) as (p & _ & _ & Haud & _ & Hv).
  rewrite Hv in H.
  destruct (keyAndSignature_accepts _ _ _ _ _ _ H)
    as (? & ? & ? & ? & ? & _ & _ & _ & _ & _ & _ & _ & H8).
  rewrite H8 in H. inversion H; subst v.
  apply audienceMismatch_false in Haud. exact (get_Normal _ _ _ name Haud).
Qed.

Lemma callVerifyJWT_Normal (rt : Runtime) (token v : value) :
  result (callVerifyJWT rt token) = Normal v ->
  exists text, token = Str text /\ result (verifyJWT rt text) = Normal v.
Proof.
  destruct token; simpl; try discriminate. intros H. now exists s.
Qed.

Lemma callVerifyJWT_other (rt : Runtime) (token : value) :
  (forall text, token <> Str text) -> callVerifyJWT rt token = (Throw TypeError, []).
Proof. intros H. destruct token; try reflexivity. now contradiction (H s). Qed.

(** *** Requests that are never answered *)

Lemma unanswered_answered (pf : Platform) (t : list Event) :
  answered pf t -> unanswered pf t = None.
Proof.
  induction t as [|ev t IH]; intros H; [reflexivity|].
  assert (Ht : unanswered pf t = None).
  { apply IH. intros url Hin. apply H. now right. }
  destruct ev as [url| |]; simpl; rewrite Ht; try reflexivity.
  now rewrite (H url (or_introl eq_refl)).
Qed.

Lemma await_answered {A} (pf : Platform) (m : Eff A) :
  answered pf (trace m) ->
  await pf m = (Settled (result m), map Outside (trace m)).
Proof.
  intros H. unfold await. fold (trace m).
  now rewrite (unanswered_answered pf (trace m) H).
Qed.

(** The only request of a verification is the one for the key set, and it
    comes first. *)
Lemma verifyJWT_trace_head (rt : Runtime) (token : string) :
  trace (verifyJWT rt token) = [] \/
  exists rest,
    trace (verifyJWT rt token) = HttpsGet GOOGLE_JWKS_URL :: rest /\
    forall url, ~ In (HttpsGet url) rest.
Proof.
  destruct (parseJWT rt token) as [p|err] eqn:HP.
  - rewrite (verifyJWT_parsed _ _ _ HP).
    destruct (claims_outcome rt (header p) (payload p) (signature p) (raw p));
      try (rewrite Hv; now left).
    rewrite Hv. right.
    destruct (signature_outcome rt (header p) (payload p) (signature p) (raw p))
      as [err t [->|(jwk & ->)] Hv'|jwk key sig r _ _ Hv']; rewrite Hv'; simpl;
      eexists; (split; [reflexivity|]); intros url; simpl; intuition discriminate.
  - rewrite (verifyJWT_unparsed _ _ _ HP). now left.
Qed.

Lemma callVerifyJWT_trace_head (rt : Runtime) (token : value) :
  trace (callVerifyJWT rt token) = [] \/
  exists rest,
    trace (callVerifyJWT rt token) = HttpsGet GOOGLE_JWKS_URL :: rest /\
    forall url, ~ In (HttpsGet url) rest.
Proof.
  destruct token; try (now left). apply verifyJWT_trace_head.
Qed.

Lemma callVerifyJWT_answered (rt : Runtime) (pf : Platform) (token : value) :
  https_answers pf GOOGLE_JWKS_URL = true ->
  answered pf (trace (callVerifyJWT rt token)).
Proof.
  intros H url Hin.
  destruct (callVerifyJWT_trace_head rt token) as [E|(rest & E & Hrest)];
    rewrite E in Hin; [contradiction|].
  destruct Hin as [Hin|Hin]; [now inversion Hin | now contradiction (Hrest url)].
Qed.

Lemma await_waiting (rt : Runtime) (pf : Platform) (token : value) :
  In (HttpsGet GOOGLE_JWKS_URL) (trace (callVerifyJWT rt token)) ->
  https_answers pf GOOGLE_JWKS_URL = false ->
  await pf (callVerifyJWT rt token)
  = (Pending, [Outside (HttpsGet GOOGLE_JWKS_URL)]).
Proof.
  intros Hin Hno. unfold await. fold (trace (callVerifyJWT rt token)).
  destruct (callVerifyJWT_trace_head rt token) as [E|(rest & E & _)];
    rewrite E in *; [contradiction|].
  simpl. now rewrite Hno.
Qed.

Section Login.

Variables (rt : Runtime) (pf : Platform) (req : Request).

Let token : value := tokenOf rt req.
Let handled : IO unit := handleGoogleLogin rt pf req.

Lemma login_missing :
  ToBoolean token = false ->
  handled = (Normal tt, [WriteHead 400 jsonHeaders;
                         EndResponse (Some (JSON_stringify pf tokenRequired))]).
Proof.
  intros H. unfold handled, handleGoogleLogin, onEnd. cbv zeta.
  rewrite tokenMissing_eq. fold (tokenOf rt req). fold token. rewrite H.
  reflexivity.
Qed.

Lemma login_awaits :
  ToBoolean token = true ->
  handled
  = detached
      (tryCatch_async
         (bind_async (await pf (callVerifyJWT rt token))
            (fun payload =>
               settled
                 (say (ConsoleLog "Payload:" payload) ;;;
                  payload_sub <- lift_io (get payload "sub") ;;
                  payload_email <- lift_io (get payload "email") ;;
                  payload_name <- lift_io (get payload "name") ;;
                  payload_picture <- lift_io (get payload "picture") ;;
                  payload_email_verified <- lift_io (get payload "email_verified") ;;
                  say (ConsoleLog "User logged in:"
                         (Obj [("id", payload_sub);
                               ("email", payload_email);
                               ("name", payload_name);
                               ("picture", payload_picture);
                               ("emailVerified", payload_email_verified)])) ;;;
                  sendJSON pf 200
                    (Obj [("success", Bool true);
                          ("user", Obj [("id", payload_sub);
                                        ("email", payload_email);
                                        ("name", payload_name);
                                        ("picture", payload_picture);
                                        ("emailVerified", payload_email_verified)]);
                          ("message", Str "Login successful")]))%io))
         (fun error =>
            settled
              (say (ConsoleError "Login error:" error) ;;;
               sendJSON pf 401 (loginFailed (message pf error)))%io)).
Proof.
  intros H. unfold handled, handleGoogleLogin, onEnd. cbv zeta.
  rewrite tokenMissing_eq. fold (tokenOf rt req). fold token. rewrite H.
  simpl negb. rewrite bind_async_lift. cbv iota.
  rewrite (field_truthy _ _ H). fold (tokenOf rt req). fold token.
  rewrite bind_async_lift. reflexivity.
Qed.

Lemma login_waiting :
  ToBoolean token = true ->
  In (HttpsGet GOOGLE_JWKS_URL) (trace (callVerifyJWT rt token)) ->
  https_answers pf GOOGLE_JWKS_URL = false ->
  handled = (Normal tt, [Outside (HttpsGet GOOGLE_JWKS_URL)]).
Proof.
  intros H Hin Hno. rewrite (login_awaits H), (await_waiting rt pf token Hin Hno).
  reflexivity.
Qed.

Lemma login_thrown (err : error) (t : list Event) :
  ToBoolean token = true ->
  callVerifyJWT rt token = (Throw err, t) ->
  answered pf t ->
  handled
  = (Normal tt,
     (map Outside t ++
      [ConsoleError "Login error:" err; WriteHead 401 jsonHeaders;
       EndResponse (Some (JSON_stringify pf (loginFailed (message pf err))))])%list).
Proof.
  intros H Hv Ha. rewrite (login_awaits H), await_answered; rewrite Hv; [|exact Ha].
  reflexivity.
Qed.

Lemma login_returned (payload : value) (t : list Event) :
  ToBoolean token = true ->
  callVerifyJWT rt token = (Normal payload, t) ->
  answered pf t ->
  handled
  = (Normal tt,
     (map Outside t ++
      [ConsoleLog "Payload:" payload;
       ConsoleLog "User logged in:" (userInfoOf payload);
       WriteHead 200 jsonHeaders;
       EndResponse (Some (JSON_stringify pf (loginSuccessful payload)))])%list).
Proof.
  intros H Hv Ha.
  assert (Hobj : forall name, get payload name = Normal (field payload name)).
  { destruct (callVerifyJWT_Normal rt token payload) as (text & _ & Hr);
      [now rewrite Hv|]. now apply verifyJWT_returns_object with rt text. }
  rewrite (login_awaits H), await_answered; rewrite Hv; [|exact Ha].
  unfold result, trace, bind_async, tryCatch_async, settled, detached.
  simpl fst. simpl snd. rewrite !Hobj. reflexivity.
Qed.

End Login.

(** ** The listener *)

Lemma responses_outside (t : list Event) : responses (map Outside t) = [].
Proof. induction t as [|ev t IH]; simpl; [reflexivity | exact IH]. Qed.

Lemma requestListener_login (rt : Runtime) (pf : Platform) (req : Request) :
  isLoginRequest pf req ->
  requestListener rt pf req = handleGoogleLogin rt pf req.
Proof.
  intros [Hm Hp]. unfold requestListener. cbv zeta. fold (baseOf req).
  rewrite Hp, bind_io_lift, Hm. reflexivity.
Qed.

Lemma neverAnswered_token (rt : Runtime) (pf : Platform) (req : Request) :
  neverAnswered rt pf req <->
  In (HttpsGet GOOGLE_JWKS_URL) (trace (callVerifyJWT rt (tokenOf rt req))) /\
  https_answers pf GOOGLE_JWKS_URL = false.
Proof.
  unfold neverAnswered. split.
  - intros (text & -> & Hin & Hno). now split.
  - intros [Hin Hno].
    destruct (tokenOf rt req) as [| | | |text| |]; try contradiction.
    now exists text.
Qed.

Lemma neverAnswered_truthy (rt : Runtime) (pf : Platform) (req : Request) :
  neverAnswered rt pf req -> ToBoolean (tokenOf rt req) = true.
Proof.
  intros (text & E & Hin & _). rewrite E.
  destruct text; [contradiction | reflexivity].
Qed.

Lemma answered_or_never (rt : Runtime) (pf : Platform) (req : Request) :
  neverAnswered rt pf req \/
  (~ neverAnswered rt pf req /\
   answered pf (trace (callVerifyJWT rt (tokenOf rt req)))).
Proof.
  destruct (https_answers pf GOOGLE_JWKS_URL) eqn:Hanswers.
  - right. split.
    + intros (text & _ & _ & Hno). rewrite Hanswers in Hno. discriminate Hno.
    + now apply callVerifyJWT_answered.
  - destruct (callVerifyJWT_trace_head rt (tokenOf rt req)) as [E|(rest & E & _)].
    + right. split.
      * intros Hn. apply neverAnswered_token in Hn. destruct Hn as [Hin _].
        rewrite E in Hin. contradiction.
      * rewrite E. intros url [].
    + left. apply neverAnswered_token. rewrite E. split; [now left | exact Hanswers].
Qed.

(** Every way the login handler can end. *)
Lemma login_shape (rt : Runtime) (pf : Platform) (req : Request) :
  (neverAnswered rt pf req /\
   handleGoogleLogin rt pf req = (Normal tt, [Outside (HttpsGet GOOGLE_JWKS_URL)])) \/
  (~ neverAnswered rt pf req /\
   exists (t : list Event) (logs : list Output) (status : Z) (body : string),
     handleGoogleLogin rt pf req
     = (Normal tt,
        (map Outside t ++ logs ++
         [WriteHead status jsonHeaders; EndResponse (Some body)])%list) /\
     In status [200; 400; 401]%Z /\
     responses logs = [] /\
     (forall ev, In (Outside ev) logs -> False) /\
     t = trace (callVerifyJWT rt (tokenOf rt req)) /\
     (status = 200%Z ->
      exists payload, result (callVerifyJWT rt (tokenOf rt req)) = Normal payload)).
Proof.
  destruct (answered_or_never rt pf req) as [Hn|[Hn Ha]].
  { left. split; [exact Hn|].
    pose proof (neverAnswered_truthy rt pf req Hn) as Htok.
    apply neverAnswered_token in Hn. destruct Hn as [Hin Hno].
    now apply login_waiting. }
  right. split; [exact Hn|].
  destruct (ToBoolean (tokenOf rt req)) eqn:Htok.
  - destruct (callVerifyJWT rt (tokenOf rt req)) as [[payload|err] t] eqn:Hv.
    + exists t, [ConsoleLog "Payload:" payload;
                 ConsoleLog "User logged in:" (userInfoOf payload)], 200%Z,
             (JSON_stringify pf (loginSuccessful payload)).
      rewrite (login_returned rt pf req payload t Htok Hv Ha).
      repeat split; simpl; auto.
      * intros ev [H|[H|[]]]; discriminate H.
      * intros _. now exists payload.
    + exists t, [ConsoleError "Login error:" err], 401%Z,
             (JSON_stringify pf (loginFailed (message pf err))).
      rewrite (login_thrown rt pf req err t Htok Hv Ha).
      repeat split; simpl; auto.
      * intros ev [H|[]]; discriminate H.
      * discriminate.
  - exists (trace (callVerifyJWT rt (tokenOf rt req))), [], 400%Z,
           (JSON_stringify pf tokenRequired).
    assert (E : trace (callVerifyJWT rt (tokenOf rt req)) = []).
    { destruct (tokenOf rt req) as [| | | |s| |]; try reflexivity.
      unfold callVerifyJWT. simpl in Htok.
      destruct s; [|discriminate Htok].
      reflexivity. }
    rewrite E, (login_missing rt pf req Htok).
    repeat split; simpl; auto.
    discriminate.
Qed.

Lemma not_in_outside (out : Output) (t : list Event) :
  (forall ev, out <> Outside ev) -> ~ In out (map Outside t).
Proof. intros H Hin. apply in_map_iff in Hin. destruct Hin as (ev & E & _). now apply (H ev). Qed.

(** X10.  A [POST /login-with-google] whose body is not JSON, is JSON that
    is not an object with a [token], or carries a falsy [token] (empty string,
    0, [false], [null]) is answered 400 "Token is required"; nothing is
    verified, fetched or logged. *)
Theorem login_without_token (rt : Runtime) (pf : Platform) (req : Request) :
  isLoginRequest pf req ->
  ToBoolean (tokenOf rt req) = false ->
  requestListener rt pf req
  = (Normal tt, [WriteHead 400 jsonHeaders;
                 EndResponse (Some (JSON_stringify pf tokenRequired))]).
Proof.
  intros Hreq H. rewrite (requestListener_login rt pf req Hreq).
  now apply login_missing.
Qed.


(** X12.  A [token] that is truthy but not a string (a number, [true], an
    array, an object) has no [split]: the login is answered 401 with the
    runtime's message for the [TypeError], and nothing is fetched or
    verified. *)
Theorem login_non_string_token (rt : Runtime) (pf : Platform) (req : Request) :
  isLoginRequest pf req ->
  ToBoolean (tokenOf rt req) = true ->
  (forall text, tokenOf rt req <> Str text) ->
  requestListener rt pf req
  = (Normal tt,
     [ConsoleError "Login error:" TypeError; WriteHead 401 jsonHeaders;
      EndResponse (Some (JSON_stringify pf
                           (loginFailed (Str (runtime_message pf TypeError)))))]).
Proof.
  intros Hreq Htok Hno. rewrite (requestListener_login rt pf req Hreq).
  apply (login_thrown rt pf req TypeError [] Htok).
  - now apply callVerifyJWT_other.
  - intros url [].
Qed.

(** X13.  When [verifyJWT] accepts the token of a login, and the key request
    was answered, the answer is 200 with [success], the message and a [user]
    made of five claims of the payload and nothing else of it: [sub] as
    [id], [email], [name], [picture] and [email_verified] as
    [emailVerified]; the payload and the user are logged first. *)
Theorem login_accepted (rt : Runtime) (pf : Platform) (req : Request)
    (text : string) (payload : value) (t : list Event) :
  isLoginRequest pf req ->
  tokenOf rt req = Str text ->
  verifyJWT rt text = (Normal payload, t) ->
  answered pf t ->
  requestListener rt pf req
  = (Normal tt,
     (map Outside t ++
      [ConsoleLog "Payload:" payload;
       ConsoleLog "User logged in:" (userInfoOf payload);
       WriteHead 200 jsonHeaders;
       EndResponse (Some (JSON_stringify pf (loginSuccessful payload)))])%list).
Proof.
  intros Hreq Htok Hv Ha. rewrite (requestListener_login rt pf req Hreq).
  apply login_returned; [rewrite Htok | now rewrite Htok | exact Ha].
  simpl. destruct text; [|reflexivity].
  (* the empty string is never accepted *)
  exfalso. revert Hv. unfold verifyJWT, parseJWT. simpl. discriminate.
Qed.

(** X14.  A login is answered 200 only for a verified token: the body of
    the request carried a string that [verifyJWT] accepted, whose audience is
    [CLIENT_ID], and among the things done for this request is an RSA-SHA256
    verification to which OpenSSL said yes. *)
Theorem login_success_is_verified (rt : Runtime) (pf : Platform) (req : Request)
    (headers : list (string * string)) :
  isLoginRequest pf req ->
  In (WriteHead 200 headers) (snd (requestListener rt pf req)) ->
  exists (text : string) (payload : value) (data : string)
         (key : KeyObject) (sig : Buffer),
    tokenOf rt req = Str text /\
    result (verifyJWT rt text) = Normal payload /\
    get payload "aud" = Normal (Str CLIENT_ID) /\
    crypto_verify rt "RSA-SHA256" data key sig = Normal true /\
    In (Outside (VerifySignature "RSA-SHA256" data key sig))
       (snd (requestListener rt pf req)) /\
    In (EndResponse (Some (JSON_stringify pf (loginSuccessful payload))))
       (snd (requestListener rt pf req)).
Proof.
  intros Hreq Hin. rewrite (requestListener_login rt pf req Hreq) in *.
  destruct (answered_or_never rt pf req) as [Hn|[_ Ha]].
  { pose proof (neverAnswered_truthy rt pf req Hn) as Htok.
    apply neverAnswered_token in Hn. destruct Hn as [Hget Hno].
    rewrite (login_waiting rt pf req Htok Hget Hno) in Hin.
    destruct Hin as [Hin|[]]. discriminate Hin. }
  destruct (ToBoolean (tokenOf rt req)) eqn:Htok.
  - destruct (callVerifyJWT rt (tokenOf rt req)) as [[accepted|err] t] eqn:Hv.
    + rewrite (login_returned rt pf req accepted t Htok Hv Ha) in *. clear Hin.
      destruct (callVerifyJWT_Normal rt (tokenOf rt req) accepted) as (text & Ht & Hr);
        [now rewrite Hv|].
      rewrite Ht in Hv. simpl in Hv.
      destruct (verifyJWT_accepts _ _ _ Hr) as (p & _ & _ & Haud & _ & Heq).
      rewrite Heq in Hr.
      destruct (keyAndSignature_accepts _ _ _ _ _ _ Hr)
        as (keys & ks & k & key & sig & _ & _ & _ & _ & _ & _ & Hverify & Htrace).
      rewrite Htrace in Heq. rewrite Heq in Hv. inversion Hv; subst accepted t.
      exists text, (payload p), (signingInput (raw p)), key, sig.
      split; [exact Ht|]. split; [now rewrite Heq|].
      split; [now apply audienceMismatch_false|].
      split; [exact Hverify|].
      split; simpl; auto 10.
    + rewrite (login_thrown rt pf req err t Htok Hv Ha) in Hin. simpl in Hin.
      apply in_app_or in Hin. destruct Hin as [Hin|[Hin|[Hin|[Hin|[]]]]];
        try discriminate Hin.
      now apply not_in_outside in Hin.
  - rewrite (login_missing rt pf req Htok) in Hin. simpl in Hin.
    destruct Hin as [Hin|[Hin|[]]]; discriminate Hin.
Qed.

(** X15.  A request, its body received to the end, is answered at most
    once, and last.  A request whose URL cannot be read gets no response:
    the exception leaves the listener before anything is written, whatever
    the method.  A login whose token
    gets as far as the key request, when that request is never answered
    (nothing sets a timeout), gets no response either: the request for the
    keys is all that happens.  Every other request gets exactly one response:
    one head, with status 200, 400, 401 or 404 and the header that allows
    any origin, then one end; the listener completes normally. *)
Theorem one_response (rt : Runtime) (pf : Platform) (req : Request) :
  (forall err,
      URL_pathname pf (url req) (baseOf req) = Throw err ->
      requestListener rt pf req = (Throw err, [])) /\
  (forall pathname,
      URL_pathname pf (url req) (baseOf req) = Normal pathname ->
      (isLoginRequest pf req /\ neverAnswered rt pf req /\
       requestListener rt pf req
       = (Normal tt, [Outside (HttpsGet GOOGLE_JWKS_URL)])) \/
      (~ (isLoginRequest pf req /\ neverAnswered rt pf req) /\
       exists (before : list Output) (status : Z)
              (headers : list (string * string)) (body : option string),
         requestListener rt pf req
         = (Normal tt,
            (before ++ [WriteHead status headers; EndResponse body])%list) /\
         responses before = [] /\
         In status [200; 400; 401; 404]%Z /\
         In ("Access-Control-Allow-Origin", "*") headers)).
Proof.
  split.
  - intros err H. unfold requestListener. cbv zeta. fold (baseOf req).
    now rewrite H.
  - intros pathname H.
    assert (Hroute : isLoginRequest pf req <->
                     (pathname =? "/login-with-google") && (method req =? "POST") = true).
    { unfold isLoginRequest. rewrite H, andb_true_iff, !String.eqb_eq.
      split; [intros [Hm Hp]; inversion Hp; now split | intros [-> Hm]; now split]. }
    unfold requestListener. cbv zeta. fold (baseOf req).
    rewrite H, bind_io_lift.
    destruct (method req =? "OPTIONS") eqn:Hoptions.
    { right. split.
      - intros [[Hm _] _]. rewrite Hm in Hoptions. discriminate Hoptions.
      - exists [], 200%Z, corsHeaders, None. repeat split; simpl; auto. }
    destruct ((pathname =? "/login-with-google") && (method req =? "POST")) eqn:Hlogin.
    { destruct (login_shape rt pf req)
        as [[Hn Heq]|(Hn & t & logs & status & body & Heq & Hst & Hresp & _)].
      - left. split; [now apply Hroute|]. now split.
      - right. split; [now intros [_ Hn']|].
        exists (map Outside t ++ logs)%list, status, jsonHeaders, (Some body).
        rewrite Heq, <- app_assoc. repeat split.
        + unfold responses. rewrite filter_app. fold (responses (map Outside t)).
          fold (responses logs). now rewrite responses_outside, Hresp.
        + simpl in *. intuition.
        + simpl. auto. }
    right. split.
    { intros [Hl _]. apply Hroute in Hl. discriminate Hl. }
    destruct ((pathname =? "/health") && (method req =? "GET")).
    { exists [], 200%Z, jsonHeaders,
        (Some (JSON_stringify pf (Obj [("status", Str "ok");
                                       ("message", Str "Server is running")]))).
      repeat split; simpl; auto. }
    exists [], 404%Z, jsonHeaders,
      (Some (JSON_stringify pf (Obj [("error", Str "Not found")]))).
    repeat split; simpl; auto.
Qed.

(** X16.  The server reaches the network and OpenSSL for one kind of
    request only: a [POST] to [/login-with-google] whose body carries a
    string as [token]; what it does there is what [verifyJWT] does on that
    string.  Preflights, health checks and unknown routes verify nothing. *)
Theorem outside_only_on_login (rt : Runtime) (pf : Platform) (req : Request)
    (ev : Event) :
  In (Outside ev) (snd (requestListener rt pf req)) ->
  isLoginRequest pf req /\
  exists text, tokenOf rt req = Str text /\ In ev (trace (verifyJWT rt text)).
Proof.
  unfold requestListener. cbv zeta. fold (baseOf req).
  destruct (URL_pathname pf (url req) (baseOf req)) as [pathname|err] eqn:Hp;
    [|intros []].
  rewrite bind_io_lift.
  destruct (method req =? "OPTIONS").
  { simpl. intros [H|[H|[]]]; discriminate H. }
  destruct ((pathname =? "/login-with-google") && (method req =? "POST")) eqn:Hroute.
  - apply andb_true_iff in Hroute. destruct Hroute as [E1 E2].
    apply String.eqb_eq in E1, E2. subst pathname.
    intros Hin. split; [split; assumption|].
    destruct (login_shape rt pf req)
      as [[(text & Htok & Hget & _) Heq]
         |(_ & t & logs & status & body & Heq & _ & _ & Hno & Ht & _)].
    + rewrite Heq in Hin. destruct Hin as [Hin|[]]. inversion Hin; subst ev.
      now exists text.
    + rewrite Heq in Hin. simpl in Hin.
      apply in_app_or in Hin. destruct Hin as [Hin|Hin].
      * apply in_map_iff in Hin. destruct Hin as (ev' & E & Hin).
        inversion E; subst ev'. subst t.
        destruct (tokenOf rt req) as [| | | |text| |]; simpl in Hin; try contradiction.
        now exists text.
      * apply in_app_or in Hin. destruct Hin as [Hin|[Hin|[Hin|[]]]];
          [now apply Hno in Hin | discriminate Hin | discriminate Hin].
  - destruct ((pathname =? "/health") && (method req =? "GET"));
      simpl; intros [H|[H|[]]]; discriminate H.
Qed.

(** ** Building a token *)

Lemma split_no_separator (sep : ascii) (s : string) :
  Str.contains sep s = false -> Str.split sep s = [s].
Proof.
  induction s as [|c s IH]; simpl; [reflexivity|].
  destruct (Ascii.eqb c sep); simpl; [discriminate|].
  intros H. now rewrite (IH H).
Qed.

Lemma split_append (sep : ascii) (s rest : string) :
  Str.contains sep s = false ->
  Str.split sep (s ++ String sep rest) = s :: Str.split sep rest.
Proof.
  induction s as [|c s IH]; simpl.
  - intros _. now rewrite Ascii.eqb_refl.
  - destruct (Ascii.eqb c sep); simpl; [discriminate|].
    intros H. now rewrite (IH H).
Qed.

(** X17.  Splitting undoes joining.  For three segments without a dot, the
    token made of them joined by dots parses exactly when the decoded first
    and second segment are JSON, and then [parseJWT] returns these two
    documents, the third segment as it stands (it is neither decoded nor
    looked at) and the three segments as [raw]. *)
Theorem parseJWT_of_segments (rt : Runtime) (s0 s1 s2 : string) :
  Str.contains "." s0 = false ->
  Str.contains "." s1 = false ->
  Str.contains "." s2 = false ->
  parseJWT rt (s0 ++ "." ++ s1 ++ "." ++ s2)
  = (let* header := JSON_parse rt (decodedText rt s0) in
     let* payload := JSON_parse rt (decodedText rt s1) in
     Normal {| header := header; payload := payload;
               signature := s2; raw := [s0; s1; s2] |}).
Proof.
  intros H0 H1 H2. unfold parseJWT. cbv zeta.
  change (s0 ++ "." ++ s1 ++ "." ++ s2)
    with (s0 ++ String "." (s1 ++ String "." s2)).
  rewrite (split_append "." s0 _ H0), (split_append "." s1 _ H1),
    (split_no_separator "." s2 H2).
  reflexivity.
Qed.

Lemma parseJWT_of_segments_witness :
  parseJWT Fixture.runtime Fixture.good
  = Normal {| header := Obj [("alg", Str "RS256"); ("kid", Str "k1")];
              payload := Obj [("iss", Str "accounts.google.com");
                              ("aud", Str CLIENT_ID);
                              ("sub", Str "7"); ("exp", Num 2000000000)];
              signature := Fixture.signed;
              raw := [Fixture.header_RS256; Fixture.claims; Fixture.signed] |}.
Proof.
  unfold Fixture.good, Fixture.token.
  rewrite (parseJWT_of_segments Fixture.runtime
             Fixture.header_RS256 Fixture.claims Fixture.signed
             ltac:(vm_compute; reflexivity) ltac:(vm_compute; reflexivity)
             ltac:(vm_compute; reflexivity)).
  vm_compute. reflexivity.
Defined.

(** ** The extra properties on the tokens and requests of the examples *)

Lemma accepted_token_is_verified_witness :
  exists (p : ParsedJWT) (keys k : value) (ks : list value)
         (key : KeyObject) (sig : Buffer),
    parseJWT Fixture.runtime Fixture.good = Normal p /\
    payload (Fixture.parsed Fixture.good) = payload p /\
    expired Fixture.runtime (payload (Fixture.parsed Fixture.good))
      (currentSeconds Fixture.runtime) = Normal false /\
    get (payload (Fixture.parsed Fixture.good)) "aud" = Normal (Str CLIENT_ID) /\
    (exists iss, get (payload (Fixture.parsed Fixture.good)) "iss" = Normal iss /\
                 isExpectedIssuer iss) /\
    result (fetchGooglePublicKeys Fixture.runtime) = Normal keys /\
    get keys "keys" = Normal (Arr ks) /\ In k ks /\ hasKidOf (header p) k /\
    crypto_createPublicKey Fixture.runtime (jwkOf k) = Normal key /\
    base64UrlDecode (signature p) = Normal sig /\
    crypto_verify Fixture.runtime "RSA-SHA256" (signingInput (raw p)) key sig
    = Normal true.
Proof.
  apply (accepted_token_is_verified Fixture.runtime Fixture.good
           (payload (Fixture.parsed Fixture.good))).
  vm_compute. reflexivity.
Defined.

Lemma valid_token_verdict_witness :
  verifyJWT Fixture.runtime Fixture.good
  = (Normal (payload (Fixture.parsed Fixture.good)),
     [HttpsGet GOOGLE_JWKS_URL;
      CreatePublicKey {| kty := Str "RSA"; n := Str "sXch"; e := Str "AQAB" |};
      VerifySignature "RSA-SHA256" (Fixture.header_RS256 ++ "." ++ Fixture.claims)
        (KeyHandle 1) [1; 2; 3]%Z]).
Proof.
  apply (valid_token_verdict Fixture.runtime Fixture.good
           (Fixture.parsed Fixture.good) 2000000000%Z
           (Str "accounts.google.com")
           (Obj [("keys", Arr [Obj [("kid", Str "k0"); ("kty", Str "RSA");
                                    ("n", Str "AQAB"); ("e", Str "AQAB")];
                               Obj [("kid", Str "k1"); ("kty", Str "RSA");
                                    ("n", Str "sXch"); ("e", Str "AQAB")]])])
           (Str "k1")
           (Obj [("kid", Str "k1"); ("kty", Str "RSA");
                 ("n", Str "sXch"); ("e", Str "AQAB")])
           Fixture.jwks
           [Obj [("kid", Str "k0"); ("kty", Str "RSA");
                 ("n", Str "AQAB"); ("e", Str "AQAB")]]
           []
           (KeyHandle 1) [1; 2; 3]%Z true);
    try (vm_compute; reflexivity).
  - vm_compute. discriminate.
  - exists "accounts.google.com". split; [reflexivity | right; now left].
  - repeat constructor. exists (Str "k0"). split; vm_compute; reflexivity.
  - exists (Str "k1"), (Str "k1"). repeat split; vm_compute; reflexivity.
Defined.

Lemma key_fetch_failure_witness :
  verifyJWT HttpFixture.offline Fixture.good
  = (Throw (SystemError "ENOTFOUND"), [HttpsGet GOOGLE_JWKS_URL]).
Proof.
  apply (key_fetch_failure HttpFixture.offline Fixture.good
           (Fixture.parsed Fixture.good));
    vm_compute; reflexivity.
Defined.

Lemma key_set_without_array_witness :
  verifyJWT HttpFixture.noArray Fixture.good
  = (Throw TypeError, [HttpsGet GOOGLE_JWKS_URL]).
Proof.
  apply (key_set_without_array HttpFixture.noArray Fixture.good
           (Fixture.parsed Fixture.good) (Obj [("keys", Obj [])]));
    try (vm_compute; reflexivity).
  intros ks. vm_compute. discriminate.
Defined.

Lemma non_object_payload_rejected_witness :
  verifyJWT Fixture.runtime HttpFixture.nullPayload = (Throw TypeError, []).
Proof.
  apply (non_object_payload_rejected Fixture.runtime HttpFixture.nullPayload
           (Fixture.parsed HttpFixture.nullPayload)
           ltac:(vm_compute; reflexivity)).
  intros properties. vm_compute. discriminate.
Defined.

Lemma unparsable_segment_rejected_witness :
  verifyJWT Fixture.runtime HttpFixture.notJSON = (Throw SyntaxError, []).
Proof.
  apply (unparsable_segment_rejected Fixture.runtime HttpFixture.notJSON
           Fixture.header_RS256 "bm9wZQ" Fixture.signed SyntaxError
           ltac:(vm_compute; reflexivity)).
  right. split; vm_compute; reflexivity.
Defined.

Lemma login_without_token_witness :
  requestListener Fixture.runtime HttpFixture.platform (HttpFixture.loginWith "0")
  = (Normal tt,
     [WriteHead 400 jsonHeaders;
      EndResponse (Some (JSON_stringify HttpFixture.platform tokenRequired))]).
Proof.
  apply (login_without_token Fixture.runtime HttpFixture.platform
           (HttpFixture.loginWith "0")).
  - split; reflexivity.
  - vm_compute. reflexivity.
Defined.


Lemma login_non_string_token_witness :
  requestListener Fixture.runtime HttpFixture.platform (HttpFixture.loginWith "5")
  = (Normal tt,
     [ConsoleError "Login error:" TypeError; WriteHead 401 jsonHeaders;
      EndResponse (Some (JSON_stringify HttpFixture.platform
                           (loginFailed (Str "token.split is not a function"))))]).
Proof.
  apply (login_non_string_token Fixture.runtime HttpFixture.platform
           (HttpFixture.loginWith "5")).
  - split; reflexivity.
  - vm_compute. reflexivity.
  - intros text. vm_compute. discriminate.
Defined.

Lemma login_accepted_witness :
  requestListener Fixture.runtime HttpFixture.platform (HttpFixture.login Fixture.good)
  = (Normal tt,
     (map Outside (trace (verifyJWT Fixture.runtime Fixture.good)) ++
      [ConsoleLog "Payload:" (payload (Fixture.parsed Fixture.good));
       ConsoleLog "User logged in:" (userInfoOf (payload (Fixture.parsed Fixture.good)));
       WriteHead 200 jsonHeaders;
       EndResponse (Some (JSON_stringify HttpFixture.platform
                            (loginSuccessful (payload (Fixture.parsed Fixture.good)))))])%list).
Proof.
  apply (login_accepted Fixture.runtime HttpFixture.platform
           (HttpFixture.login Fixture.good) Fixture.good).
  - split; reflexivity.
  - vm_compute. reflexivity.
  - vm_compute. reflexivity.
  - intros url _. reflexivity.
Defined.

Lemma login_success_is_verified_witness :
  exists (text : string) (payload : value) (data : string)
         (key : KeyObject) (sig : Buffer),
    tokenOf Fixture.runtime (HttpFixture.login Fixture.good) = Str text /\
    result (verifyJWT Fixture.runtime text) = Normal payload /\
    get payload "aud" = Normal (Str CLIENT_ID) /\
    crypto_verify Fixture.runtime "RSA-SHA256" data key sig = Normal true /\
    In (Outside (VerifySignature "RSA-SHA256" data key sig))
       (snd (requestListener Fixture.runtime HttpFixture.platform
               (HttpFixture.login Fixture.good))) /\
    In (EndResponse (Some (JSON_stringify HttpFixture.platform
                             (loginSuccessful payload))))
       (snd (requestListener Fixture.runtime HttpFixture.platform
               (HttpFixture.login Fixture.good))).
Proof.
  apply (login_success_is_verified Fixture.runtime HttpFixture.platform
           (HttpFixture.login Fixture.good) jsonHeaders).
  - split; reflexivity.
  - vm_compute. auto 10.
Defined.

Lemma one_response_witness :
  (isLoginRequest HttpFixture.silent (HttpFixture.login Fixture.good) /\
   neverAnswered Fixture.runtime HttpFixture.silent (HttpFixture.login Fixture.good) /\
   requestListener Fixture.runtime HttpFixture.silent (HttpFixture.login Fixture.good)
   = (Normal tt, [Outside (HttpsGet GOOGLE_JWKS_URL)])) \/
  (~ (isLoginRequest HttpFixture.silent (HttpFixture.login Fixture.good) /\
      neverAnswered Fixture.runtime HttpFixture.silent (HttpFixture.login Fixture.good)) /\
   exists (before : list Output) (status : Z)
          (headers : list (string * string)) (body : option string),
     requestListener Fixture.runtime HttpFixture.silent (HttpFixture.login Fixture.good)
     = (Normal tt, (before ++ [WriteHead status headers; EndResponse body])%list) /\
     responses before = [] /\
     In status [200; 400; 401; 404]%Z /\
     In ("Access-Control-Allow-Origin", "*") headers).
Proof.
  apply (proj2 (one_response Fixture.runtime HttpFixture.silent
                  (HttpFixture.login Fixture.good)) "/login-with-google").
  reflexivity.
Defined.

Lemma unconvertible_exp_rejected_witness :
  verifyJWT Fixture.runtime Fixture.objectExp = (Throw TypeError, []).
Proof.
  apply (unconvertible_exp_rejected Fixture.runtime Fixture.objectExp
           (Fixture.parsed Fixture.objectExp) (Obj [("toString", Num 1)]) TypeError).
  - vm_compute. reflexivity.
  - vm_compute. reflexivity.
  - reflexivity.
  - reflexivity.
Defined.

(** The same login on a network that answers, and on one that does not;
    the expiry check on the token whose [exp] is [{"toString":1}]. *)
Example answered_login_gets_a_response :
  responses (snd (requestListener Fixture.runtime HttpFixture.platform
                    (HttpFixture.login Fixture.good)))
  = [WriteHead 200 jsonHeaders;
     EndResponse (Some (JSON_stringify HttpFixture.platform
                          (loginSuccessful (payload (Fixture.parsed Fixture.good)))))].
Proof. vm_compute. reflexivity. Qed.

Example object_exp_stops_at_expiry :
  expired Fixture.runtime (payload (Fixture.parsed Fixture.objectExp))
    (currentSeconds Fixture.runtime)
  = Throw TypeError.
Proof. vm_compute. reflexivity. Qed.

Example unanswered_login_gets_no_response :
  requestListener Fixture.runtime HttpFixture.silent (HttpFixture.login Fixture.good)
  = (Normal tt, [Outside (HttpsGet GOOGLE_JWKS_URL)]).
Proof. vm_compute. reflexivity. Qed.

Lemma outside_only_on_login_witness :
  isLoginRequest HttpFixture.platform (HttpFixture.login Fixture.good) /\
  exists text,
    tokenOf Fixture.runtime (HttpFixture.login Fixture.good) = Str text /\
    In (HttpsGet GOOGLE_JWKS_URL) (trace (verifyJWT Fixture.runtime text)).
Proof.
  apply (outside_only_on_login Fixture.runtime HttpFixture.platform
           (HttpFixture.login Fixture.good) (HttpsGet GOOGLE_JWKS_URL)).
  vm_compute. auto.
Defined.

(** ** The mail script *)

(** X18.  Each call of [sendEmail] hands exactly one message to the
    transporter: from the configured user, to the given recipient, with the
    text also as HTML when no HTML (or an empty one) is given.  The value of
    [EMAIL_PASS] is written to the console on every call.  An error of the
    transporter is logged and thrown again unchanged; its answer is returned
    unchanged, unless it is [null] or [undefined], which makes the call
    throw a [TypeError] although the mail has gone. *)
Theorem sendEmail_outcome (ps : Mail.Process) (to subject text html : value) :
  let message := messageOf ps to subject text html in
  let sent := Mail.sendEmail ps to subject text html in
  filter isSendMail (snd sent) = [Mail.SendMail message] /\
  In (Mail.Log [Mail.env (Mail.EMAIL_PASS ps)]) (snd sent) /\
  (forall err,
      Mail.transporter ps message = Throw err ->
      fst sent = Throw err /\
      In (Mail.LogError "Errore invio email:" err) (snd sent)) /\
  (forall info,
      Mail.transporter ps message = Normal info ->
      fst sent = if nullish info then Throw TypeError else Normal info).
Proof.
  cbv zeta. unfold Mail.sendEmail, messageOf. cbv zeta.
  change (Mail.auth_user (Mail.config ps))
    with (Mail.orElse (Mail.EMAIL_USER ps) "your-email@gmail.com").
  destruct (Mail.transporter ps _) as [answer|failure] eqn:E.
  - destruct answer as [| |b|z|s|l|ps']; simpl;
      try destruct (lookup "messageId" ps');
      (split; [reflexivity|]); (split; [simpl; auto|]);
      (split; [intros e1 H; discriminate H
              | intros i H; inversion H; subst; reflexivity]).
  - simpl. split; [reflexivity|]. split; [simpl; auto|].
    split; [|intros i H; discriminate H].
    intros e1 H. inversion H; subst. split; [reflexivity | simpl; auto 10].
Qed.

(** X19.  Run from the command line, the script sends one message, made of
    the three arguments, each replaced by its default when absent or empty,
    and then exits, once and last: with 0 when the transporter answered with
    a value other than [null] and [undefined], with 1 otherwise. *)
Theorem main_exit_code (ps : Mail.Process) :
  exists before : list Mail.Event,
    Mail.main ps
    = (Normal tt,
       (before ++
        [Mail.Exit (exitCodeFor (Mail.transporter ps (commandLineMessage ps)))])%list) /\
    filter isExit before = [] /\
    filter isSendMail before = [Mail.SendMail (commandLineMessage ps)].
Proof.
  unfold Mail.main, Mail.sendEmail, commandLineMessage. cbv zeta.
  change (Mail.auth_user (Mail.config ps))
    with (Mail.orElse (Mail.EMAIL_USER ps) "your-email@gmail.com").
  simpl ToBoolean. cbv iota.
  destruct (Mail.transporter ps _) as [answer|failure] eqn:E.
  - destruct answer as [| |b|z|s|l|ps']; cbn -[nth_error];
      try (destruct (lookup "messageId" ps'); cbn -[nth_error]);
      match goal with
      | |- context [ [?a; ?b; ?c; ?d; Mail.Exit _] ] => exists [a; b; c; d]
      end; repeat split.
  - cbn -[nth_error].
    match goal with
    | |- context [ [?a; ?b; ?c; ?d; Mail.Exit _] ] => exists [a; b; c; d]
    end. repeat split.
Qed.

(** ** The socket server *)

Lemma members_app (room : string) (a b : Tabellone.Rooms) :
  Tabellone.members room (a ++ b)%list
  = (Tabellone.members room a ++ Tabellone.members room b)%list.
Proof. unfold Tabellone.members. now rewrite filter_app, map_app. Qed.

Lemma members_join (room : string) (id : Tabellone.SocketId) (rooms : Tabellone.Rooms) :
  ~ In id (Tabellone.members room rooms) ->
  Tabellone.members room (Tabellone.join room id rooms)
  = (Tabellone.members room rooms ++ [id])%list.
Proof.
  intros Hnew. unfold Tabellone.join.
  destruct (existsb (fun entry => (fst entry =? room) && (snd entry =? id)) rooms) eqn:E.
  - exfalso. apply Hnew. apply existsb_exists in E.
    destruct E as ([r i] & Hin & Hboth). simpl in Hboth.
    apply andb_true_iff in Hboth. destruct Hboth as [Hr Hi].
    apply String.eqb_eq in Hi. subst i.
    unfold Tabellone.members. apply in_map_iff. exists (r, id). split; [reflexivity|].
    apply filter_In. split; [exact Hin | exact Hr].
  - rewrite members_app. unfold Tabellone.members at 2. simpl.
    now rewrite String.eqb_refl.
Qed.

Lemma members_leaveAll (room : string) (id : Tabellone.SocketId) (rooms : Tabellone.Rooms) :
  Tabellone.members room (Tabellone.leaveAll id rooms)
  = filter (fun other => negb (other =? id)) (Tabellone.members room rooms).
Proof.
  unfold Tabellone.members, Tabellone.leaveAll.
  induction rooms as [|[r i] rooms IH]; simpl; [reflexivity|].
  destruct (i =? id) eqn:Ei; destruct (r =? room) eqn:Er; simpl;
    rewrite ?Ei, ?Er; simpl; rewrite ?Ei; now rewrite IH.
Qed.

Lemma NoDup_snoc (l : list string) (x : string) :
  NoDup l -> ~ In x l -> NoDup (l ++ [x])%list.
Proof.
  intros Hl Hx. induction Hl as [|y l Hy Hl IH]; simpl.
  - constructor; [intros [] | constructor].
  - constructor.
    + intros Hin. apply in_app_or in Hin. destruct Hin as [Hin|[->|[]]].
      * now apply Hy.
      * apply Hx. now left.
    + apply IH. intros Hin. apply Hx. now right.
Qed.

(** The room [tabellone] holds exactly the connected sockets, each once. *)
Lemma run_members (history : list Tabellone.Input) (rooms : Tabellone.Rooms) :
  NoDup (Tabellone.members "tabellone" rooms) ->
  possible (Tabellone.members "tabellone" rooms) history ->
  Tabellone.members "tabellone" (fst (Tabellone.run rooms history))
  = connectedAfter (Tabellone.members "tabellone" rooms) history /\
  NoDup (connectedAfter (Tabellone.members "tabellone" rooms) history).
Proof.
  revert rooms. induction history as [|input rest IH]; intros rooms Hnd Hp.
  - split; [reflexivity | exact Hnd].
  - destruct input as [id|id numero|id reason]; simpl in Hp; destruct Hp as [Hid Hp];
      cbn [Tabellone.run Tabellone.handle connectedAfter].
    + rewrite <- (members_join "tabellone" id rooms Hid) in Hp |- *.
      destruct (Tabellone.run (Tabellone.join "tabellone" id rooms) rest) as [final out] eqn:E.
      specialize (IH (Tabellone.join "tabellone" id rooms)).
      rewrite E in IH. apply IH; [|exact Hp].
      rewrite (members_join "tabellone" id rooms Hid). now apply NoDup_snoc.
    + destruct (Tabellone.run rooms rest) as [final out] eqn:E.
      specialize (IH rooms). rewrite E in IH. now apply IH.
    + rewrite <- (members_leaveAll "tabellone" id rooms) in Hp |- *.
      destruct (Tabellone.run (Tabellone.leaveAll id rooms) rest) as [final out] eqn:E.
      specialize (IH (Tabellone.leaveAll id rooms)).
      rewrite E in IH. apply IH; [|exact Hp].
      rewrite members_leaveAll. now apply NoDup_filter.
Qed.

Lemma run_app (rooms : Tabellone.Rooms) (h1 h2 : list Tabellone.Input) :
  Tabellone.run rooms (h1 ++ h2)%list
  = (fst (Tabellone.run (fst (Tabellone.run rooms h1)) h2),
     (snd (Tabellone.run rooms h1)
      ++ snd (Tabellone.run (fst (Tabellone.run rooms h1)) h2))%list).
Proof.
  revert rooms. induction h1 as [|input rest IH]; intros rooms; simpl.
  - now destruct (Tabellone.run rooms h2).
  - destruct (Tabellone.handle rooms input) as [rooms' out].
    rewrite IH. destruct (Tabellone.run rooms' rest) as [mid out1]. simpl.
    now rewrite app_assoc.
Qed.

Lemma possible_app (connected : list Tabellone.SocketId)
    (h1 h2 : list Tabellone.Input) :
  possible connected (h1 ++ h2)%list ->
  possible connected h1 /\ possible (connectedAfter connected h1) h2.
Proof.
  revert connected. induction h1 as [|input rest IH]; intros connected H; simpl in *.
  - auto.
  - destruct input; destruct H as [Hid H]; destruct (IH _ H); auto.
Qed.

(** X20.  A number called by a connected socket is sent, as
    ['mostra-numero'], to every other socket connected at that moment, once
    each and in the order they connected, and not to the caller; sockets that
    have disconnected get nothing. *)
Theorem chiama_reaches_the_others (history : list Tabellone.Input)
    (caller : Tabellone.SocketId) (numero : value) :
  possible [] (history ++ [Tabellone.Chiama caller numero])%list ->
  snd (Tabellone.run [] (history ++ [Tabellone.Chiama caller numero])%list)
  = (snd (Tabellone.run [] history)
     ++ Tabellone.Log [Str "è stato chiamato il numero "; numero]
     :: map (fun target => Tabellone.Emit target "mostra-numero" numero)
          (filter (fun id => negb (id =? caller)) (connectedAfter [] history)))%list /\
  NoDup (connectedAfter [] history) /\
  In caller (connectedAfter [] history).
Proof.
  intros Hp. destruct (possible_app [] _ _ Hp) as [Hh Hc].
  simpl in Hc. destruct Hc as [Hin _].
  destruct (run_members history [] (NoDup_nil _) Hh) as [Hm Hnd].
  simpl in Hm, Hnd. split; [|split; assumption].
  rewrite run_app. simpl. unfold Tabellone.toRoomEmit.
  rewrite Hm, app_nil_r. reflexivity.
Qed.

Lemma chiama_reaches_the_others_witness :
  snd (Tabellone.run []
         [Tabellone.Connection "a"; Tabellone.Connection "b";
          Tabellone.Connection "c"; Tabellone.Disconnect "b" "transport close";
          Tabellone.Connection "d"; Tabellone.Chiama "a" (Num 42)])
  = [Tabellone.Log [Str "nuova connessione"; Str "a"];
     Tabellone.Log [Str "nuova connessione"; Str "b"];
     Tabellone.Log [Str "nuova connessione"; Str "c"];
     Tabellone.Log [Str "socket disconnessa"; Undefined];
     Tabellone.Log [Str "nuova connessione"; Str "d"];
     Tabellone.Log [Str "è stato chiamato il numero "; Num 42];
     Tabellone.Emit "c" "mostra-numero" (Num 42);
     Tabellone.Emit "d" "mostra-numero" (Num 42)].
Proof.
  apply (proj1 (chiama_reaches_the_others
                  [Tabellone.Connection "a"; Tabellone.Connection "b";
                   Tabellone.Connection "c";
                   Tabellone.Disconnect "b" "transport close";
                   Tabellone.Connection "d"] "a" (Num 42)
                  ltac:(simpl; intuition discriminate))).
Defined.

Lemma emitted_from (history : list Tabellone.Input) (rooms : Tabellone.Rooms)
    (target : Tabellone.SocketId) (event : string) (arg : value) :
  NoDup (Tabellone.members "tabellone" rooms) ->
  possible (Tabellone.members "tabellone" rooms) history ->
  In (Tabellone.Emit target event arg) (snd (Tabellone.run rooms history)) ->
  event = "mostra-numero" /\
  exists before caller after,
    history = (before ++ Tabellone.Chiama caller arg :: after)%list /\
    target <> caller /\
    In target (connectedAfter (Tabellone.members "tabellone" rooms) before).
Proof.
  revert rooms. induction history as [|input rest IH]; intros rooms Hnd Hp Hin.
  - destruct Hin.
  - cbn [Tabellone.run] in Hin.
    destruct (Tabellone.handle rooms input) as [rooms' out] eqn:Hh.
    destruct (Tabellone.run rooms' rest) as [final out'] eqn:Hr.
    simpl in Hin. apply in_app_or in Hin.
    assert (Later :
              NoDup (Tabellone.members "tabellone" rooms') ->
              possible (Tabellone.members "tabellone" rooms') rest ->
              (forall before,
                  connectedAfter (Tabellone.members "tabellone" rooms) (input :: before)
                  = connectedAfter (Tabellone.members "tabellone" rooms') before) ->
              In (Tabellone.Emit target event arg) out' ->
              event = "mostra-numero" /\
              exists before caller after,
                (input :: rest) = (before ++ Tabellone.Chiama caller arg :: after)%list /\
                target <> caller /\
                In target (connectedAfter (Tabellone.members "tabellone" rooms) before)).
    { intros Hnd' Hp' Hconn Hin'.
      specialize (IH rooms' Hnd' Hp'). rewrite Hr in IH.
      destruct (IH Hin') as (Hev & before & caller & after & -> & Hne & Hc).
      split; [exact Hev|]. exists (input :: before), caller, after.
      split; [reflexivity|]. split; [exact Hne|]. now rewrite Hconn. }
    destruct input as [id|id numero|id reason]; simpl in Hp; destruct Hp as [Hid Hp];
      simpl in Hh; inversion Hh; subst rooms' out; clear Hh.
    + destruct Hin as [[Hin|[]]|Hin]; [discriminate Hin|].
      apply Later; try assumption.
      * rewrite (members_join "tabellone" id rooms Hid). now apply NoDup_snoc.
      * now rewrite (members_join "tabellone" id rooms Hid).
      * intros before. simpl. now rewrite (members_join "tabellone" id rooms Hid).
    + destruct Hin as [[Hin|Hin]|Hin]; [discriminate Hin| |].
      * unfold Tabellone.toRoomEmit in Hin. apply in_map_iff in Hin.
        destruct Hin as (t & E & Hf). inversion E; subst t event arg.
        apply filter_In in Hf. destruct Hf as [Hm Hne].
        split; [reflexivity|]. exists [], id, rest.
        split; [reflexivity|]. split; [|exact Hm].
        intros ->. rewrite String.eqb_refl in Hne. discriminate Hne.
      * apply Later; try assumption. intros before. reflexivity.
    + destruct Hin as [[Hin|[]]|Hin]; [discriminate Hin|].
      apply Later; try assumption.
      * rewrite members_leaveAll. now apply NoDup_filter.
      * now rewrite members_leaveAll.
      * intros before. simpl. now rewrite members_leaveAll.
Qed.

(** X21.  The server never echoes and never invents: whatever it sends is a
    ['mostra-numero'] carrying a number that some socket called, sent to a
    socket other than that caller and connected at the time of the call. *)
Theorem never_echoes (history : list Tabellone.Input)
    (target : Tabellone.SocketId) (event : string) (arg : value) :
  possible [] history ->
  In (Tabellone.Emit target event arg) (snd (Tabellone.run [] history)) ->
  event = "mostra-numero" /\
  exists before caller after,
    history = (before ++ Tabellone.Chiama caller arg :: after)%list /\
    target <> caller /\
    In target (connectedAfter [] before).
Proof.
  intros Hp Hin.
  exact (emitted_from history [] target event arg (NoDup_nil _) Hp Hin).
Qed.

Lemma never_echoes_witness :
  "mostra-numero" = "mostra-numero" /\
  exists before caller after,
    [Tabellone.Connection "a"; Tabellone.Connection "b";
     Tabellone.Chiama "a" (Num 42)]
    = (before ++ Tabellone.Chiama caller (Num 42) :: after)%list /\
    "b" <> caller /\
    In "b" (connectedAfter [] before).
Proof.
  apply (never_echoes
           [Tabellone.Connection "a"; Tabellone.Connection "b";
            Tabellone.Chiama "a" (Num 42)] "b" "mostra-numero" (Num 42)).
  - simpl. intuition discriminate.
  - simpl. auto.
Defined.

Lemma sendEmail_outcome_witness :
  fst (Mail.sendEmail MailFixture.refused
         (Str "you@example.com") (Str "Ciao") (Str "Testo") (Str ""))
  = Throw (SystemError "EAUTH") /\
  In (Mail.LogError "Errore invio email:" (SystemError "EAUTH"))
     (snd (Mail.sendEmail MailFixture.refused
             (Str "you@example.com") (Str "Ciao") (Str "Testo") (Str ""))).
Proof.
  apply (proj1 (proj2 (proj2 (sendEmail_outcome MailFixture.refused
                                (Str "you@example.com")
                                (Str "Ciao") (Str "Testo") (Str ""))))).
  reflexivity.
Defined.

Example refused_mail_exits_with_1 :
  snd (Mail.main MailFixture.refused)
  = [Mail.Log [Str "me@example.com"]; Mail.Log [Undefined];
     Mail.SendMail {| Mail.from := Str "me@example.com";
                      Mail.to := Str "destinatario@example.com";
                      Mail.subject := Str "Test Email";
                      Mail.text := Str "Questo è un messaggio di test.";
                      Mail.html := Str "Questo è un messaggio di test." |};
     Mail.LogError "Errore invio email:" (SystemError "EAUTH");
     Mail.Exit 1].
Proof. reflexivity. Qed.
